(** * pdf-craft: the remote OCR backend and the interruption classifier

    A shallow embedding of [pdf_craft/error.py] and
    [pdf_craft/pdf/api_extractor.py], the implementation of the
    [PageExtractorBackend] protocol of [pdf_craft/pdf/backend.py] by a
    remote OpenAI-compatible service, with the properties the specification
    states about them.

    Python values are modelled as follows.
    - [str] is a list of Unicode code points ([pystr]); literals are written
      [py "..."].
    - an exception object is its class' method resolution order, its
      [str()], its integer instance attributes and its [__cause__];
      [isinstance] is membership in the method resolution order.
    - effects (the backend instance, the abort probe, the transport) are
      threaded through an explicit state-and-exception monad [M]; what the
      backend calls in other modules and libraries is a [Runtime]. *)

From Stdlib Require Import ZArith NArith List String Ascii Bool Lia.
From Stdlib Require Import DecimalString.
From stdpp Require Import base decidable option list strings gmap.

Import ListNotations.
Local Open Scope string_scope.
Local Open Scope list_scope.
Local Open Scope Z_scope.

(* ===================================================================== *)
(** ** Python strings *)
(* ===================================================================== *)

(** A Python [str]: a sequence of code points (surrogates included). *)
Definition codepoint := N.
Definition pystr := list codepoint.

(** An ASCII literal as a Python string. *)
Definition py (s : string) : pystr :=
  List.map N_of_ascii (list_ascii_of_string s).

(** [str(n)] / [f"{n}"] for an [int]. *)
Definition str_of_int (n : Z) : pystr :=
  py (NilZero.string_of_int (Z.to_int n)).

(** [str.isspace] on one code point: the code points CPython's
    [_PyUnicode_IsWhitespace] accepts. *)
Definition is_whitespace (c : codepoint) : bool :=
  ((9 <=? c) && (c <=? 13) || (28 <=? c) && (c <=? 32)
   || (c =? 133) || (c =? 160) || (c =? 5760)
   || (8192 <=? c) && (c <=? 8202)
   || (c =? 8232) || (c =? 8233) || (c =? 8239) || (c =? 8287)
   || (c =? 12288))%N.

Fixpoint lstrip_by (p : codepoint -> bool) (s : pystr) : pystr :=
  match s with
  | [] => []
  | c :: r => if p c then lstrip_by p r else s
  end.

Definition rstrip_by (p : codepoint -> bool) (s : pystr) : pystr :=
  rev (lstrip_by p (rev s)).

(** [s.strip()]: leading and trailing whitespace removed. *)
Definition strip (s : pystr) : pystr :=
  rstrip_by is_whitespace (lstrip_by is_whitespace s).

(** [s.rstrip(chars)]: trailing code points that occur in [chars] removed. *)
Definition rstrip (s chars : pystr) : pystr :=
  rstrip_by (fun c => existsb (N.eqb c) chars) s.

(** Truthiness of a [str | None] value: [None] and [""] are falsy. *)
Definition str_truthy (t : option pystr) : bool :=
  match t with
  | None | Some [] => false
  | Some (_ :: _) => true
  end.

(** [t or ""] for [t : str | None]. *)
Definition or_empty (t : option pystr) : pystr :=
  match t with
  | Some s => s
  | None => []
  end.

(* ===================================================================== *)
(** ** Python exception objects *)
(* ===================================================================== *)

(** Class objects.  The classes [pdf_craft/error.py] declares and the
    builtins it meets are constructors of their own; any other class (of a
    caller, of [openai], of [doc_page_extractor]) is [cls_other] with its
    qualified name and its integer class attributes. *)
Inductive PyClass : Type :=
  | cls_object
  | cls_BaseException
  | cls_Exception
  | cls_AttributeError
  | cls_PDFError
  | cls_OCRError
  | cls_TokenLimitError
  | cls_AbortError
  | cls_InterruptedError
  | cls_other (qualname : string) (attrs : list (string * Z)).

#[global] Instance PyClass_eq_dec : EqDecision PyClass.
Proof. solve_decision. Defined.

(** The class body's own integer attributes.  Of the local classes only
    [AbortError] has some: [input_tokens: int = 0], [output_tokens: int = 0]. *)
Definition class_dict (c : PyClass) : list (string * Z) :=
  match c with
  | cls_AbortError => [("input_tokens", 0); ("output_tokens", 0)]
  | cls_other _ attrs => attrs
  | _ => []
  end.

Fixpoint assoc_lookup (name : string) (kvs : list (string * Z)) : option Z :=
  match kvs with
  | [] => None
  | (k, v) :: r => if String.eqb name k then Some v else assoc_lookup name r
  end.

(** An exception instance: [type(e).__mro__], [str(e)], the integer entries
    of the instance [__dict__], and [__cause__]. *)
#[warnings="-register-all"] Inductive PyExc : Type := mkExc {
  exc_mro : list PyClass;
  exc_message : pystr;
  exc_dict : gmap string Z;
  exc_cause : option PyExc
}.

(** [isinstance(e, c)]. *)
Definition isinstance (e : PyExc) (c : PyClass) : bool :=
  bool_decide (c ∈ exc_mro e).

(** [isinstance(e, (c1, ..., cn))]. *)
Definition isinstance_any (e : PyExc) (cs : list PyClass) : bool :=
  existsb (isinstance e) cs.

Fixpoint mro_lookup (mro : list PyClass) (name : string) : option Z :=
  match mro with
  | [] => None
  | c :: r =>
      match assoc_lookup name (class_dict c) with
      | Some v => Some v
      | None => mro_lookup r name
      end
  end.

(** Attribute resolution: the instance dictionary, then the classes of the
    MRO in order. *)
Definition lookup_attr (e : PyExc) (name : string) : option Z :=
  match exc_dict e !! name with
  | Some v => Some v
  | None => mro_lookup (exc_mro e) name
  end.

(** [getattr(e, name, default)]. *)
Definition getattr (e : PyExc) (name : string) (default : Z) : Z :=
  match lookup_attr e name with
  | Some v => v
  | None => default
  end.

(** Outcome of running Python code: a value or a raised exception. *)
Inductive result (A : Type) : Type :=
  | Return (a : A)
  | Raise (e : PyExc).
Arguments Return {A} a.
Arguments Raise {A} e.

Definition exception_mro : list PyClass :=
  [cls_Exception; cls_BaseException; cls_object].

Definition AttributeError (message : pystr) : PyExc :=
  mkExc (cls_AttributeError :: exception_mro) message ∅ None.

Fixpoint has_dot (s : string) : bool :=
  match s with
  | EmptyString => false
  | String c r => Ascii.eqb c "." || has_dot r
  end.

(** What follows the last dot of a qualified name. *)
Fixpoint after_last_dot (s : string) : string :=
  match s with
  | EmptyString => EmptyString
  | String c r =>
      if has_dot r then after_last_dot r
      else if Ascii.eqb c "." then r else s
  end.

(** [c.__name__]. *)
Definition class_name (c : PyClass) : string :=
  match c with
  | cls_object => "object"
  | cls_BaseException => "BaseException"
  | cls_Exception => "Exception"
  | cls_AttributeError => "AttributeError"
  | cls_PDFError => "PDFError"
  | cls_OCRError => "OCRError"
  | cls_TokenLimitError => "TokenLimitError"
  | cls_AbortError => "AbortError"
  | cls_InterruptedError => "InterruptedError"
  | cls_other qualname _ => after_last_dot qualname
  end.

(** [type(e).__name__]: the name of the first class of the MRO. *)
Definition type_name (e : PyExc) : string :=
  match exc_mro e with
  | c :: _ => class_name c
  | [] => "object"
  end.

(** The [AttributeError] of a failed attribute read on an object whose
    class is named [type_name]:
    ['type_name' object has no attribute 'name']. *)
Definition no_attribute (type_name name : string) : PyExc :=
  AttributeError (py "'" ++ py type_name ++ py "' object has no attribute '"
                  ++ py name ++ py "'").

(** [e.name]: raises [AttributeError] when resolution fails. *)
Definition get_attr (e : PyExc) (name : string) : result Z :=
  match lookup_attr e name with
  | Some v => Return v
  | None => Raise (no_attribute (type_name e) name)
  end.

(* ===================================================================== *)
(** ** pdf_craft/metering.py (declarations) *)
(* ===================================================================== *)

(** Modelled from the spec: [InterruptedKind] is declared in
    [pdf_craft/metering.py]; the spec gives the closed set
    {TOKEN_LIMIT_EXCEEDED, ABORT}. *)
Inductive InterruptedKind : Type :=
  | TOKEN_LIMIT_EXCEEDED
  | ABORT.

(** Modelled from the spec: [OCRTokensMetering] is declared in
    [pdf_craft/metering.py]; the spec gives an immutable record of an
    input-token count and an output-token count. *)
Record OCRTokensMetering : Type := mkMetering {
  input_tokens : Z;
  output_tokens : Z
}.

(* ===================================================================== *)
(** ** pdf_craft/error.py *)
(* ===================================================================== *)

(** [PDFError(message, page_index=None)]. *)
Definition PDFError (message : pystr) (page_index : option Z) : PyExc :=
  mkExc (cls_PDFError :: exception_mro) message
        (match page_index with
         | Some i => {["page_index" := i]}
         | None => ∅
         end)
        None.

(** [OCRError(message, page_index, step_index)], raised [from cause]. *)
Definition OCRError (message : pystr) (page_index step_index : Z)
    (cause : option PyExc) : PyExc :=
  mkExc (cls_OCRError :: exception_mro) message
        (<["step_index" := step_index]> {["page_index" := page_index]})
        cause.

(** [TokenLimitError(input_tokens=0, output_tokens=0)]. *)
Definition TokenLimitError (input_tokens output_tokens : Z) : PyExc :=
  mkExc (cls_TokenLimitError :: exception_mro) []
        (<["output_tokens" := output_tokens]> {["input_tokens" := input_tokens]})
        None.

(** [AbortError()]: no instance attribute of its own; the token counts are
    class attributes. *)
Definition AbortError : PyExc :=
  mkExc (cls_AbortError :: exception_mro) [] ∅ None.

Definition is_inline_error (error : PyExc) : bool :=
  isinstance_any error [cls_PDFError; cls_OCRError].

(** An [InterruptedError] object: its two read-only properties. *)
Record InterruptedError : Type := mkInterrupted {
  kind : InterruptedKind;
  metering : OCRTokensMetering
}.

(** What [from doc_page_extractor import AbortError, ExtractionAbortedError,
    TokenLimitError] binds when the optional library is installed. *)
Record DocPageExtractor : Type := mkDPE {
  DPEAbortError : PyClass;
  ExtractionAbortedError : PyClass;
  DPETokenLimitError : PyClass
}.

(** [to_interrupted_error(error)].  [doc_page_extractor] is the outcome of
    the import inside the function: [None] stands for [ImportError], the
    only exception the function catches there; an import that raises
    anything else is outside this model. *)
Definition to_interrupted_error (doc_page_extractor : option DocPageExtractor)
    (error : PyExc) : result (option InterruptedError) :=
  if isinstance error cls_TokenLimitError then
    match get_attr error "input_tokens" with
    | Raise x => Raise x
    | Return i =>
        match get_attr error "output_tokens" with
        | Raise x => Raise x
        | Return o =>
            Return (Some (mkInterrupted TOKEN_LIMIT_EXCEEDED (mkMetering i o)))
        end
    end
  else if isinstance error cls_AbortError then
    Return (Some (mkInterrupted ABORT
                    (mkMetering (getattr error "input_tokens" 0)
                                (getattr error "output_tokens" 0))))
  else
    match doc_page_extractor with
    | None => Return None
    | Some dpe =>
        if isinstance error (ExtractionAbortedError dpe) then
          let kind : option InterruptedKind :=
            if isinstance error (DPEAbortError dpe) then Some ABORT
            else if isinstance error (DPETokenLimitError dpe)
                 then Some TOKEN_LIMIT_EXCEEDED
                 else None in
          match kind with
          | Some k =>
              match get_attr error "input_tokens" with
              | Raise x => Raise x
              | Return i =>
                  match get_attr error "output_tokens" with
                  | Raise x => Raise x
                  | Return o => Return (Some (mkInterrupted k (mkMetering i o)))
                  end
              end
          | None => Return None
          end
        else Return None
    end.

(* ===================================================================== *)
(** ** Data shapes of pdf_craft/pdf/types.py and of the libraries *)
(* ===================================================================== *)

(** A [PIL.Image.Image]: its [size] and its raster. *)
Record Image : Type := mkImage {
  image_size : Z * Z;
  image_raster : list Byte.byte
}.

(** Modelled from the spec: [PageLayout] is declared in
    [pdf_craft/pdf/types.py]; the spec lists a role tag, a bounding
    rectangle (left, top, right, bottom), the normalized text, a
    reading-order index and an optional content hash. *)
Record PageLayout : Type := mkPageLayout {
  layout_ref : pystr;
  layout_det : Z * Z * Z * Z;
  layout_text : pystr;
  layout_order : Z;
  layout_hash : option pystr
}.

(** Modelled from the spec: [Page] is declared in [pdf_craft/pdf/types.py];
    the spec lists the page index, the optional raw image, the body and
    footnote layouts and the two token counts. *)
Record Page : Type := mkPage {
  page_index : Z;
  page_image : option Image;
  page_body_layouts : list PageLayout;
  page_footnotes_layouts : list PageLayout;
  page_input_tokens : Z;
  page_output_tokens : Z
}.

(** An attribute of a library object as [getattr] sees it: not there,
    [None], or a value. *)
Inductive attr (A : Type) : Type :=
  | Absent
  | IsNone
  | Present (a : A).
Arguments Absent {A}.
Arguments IsNone {A}.
Arguments Present {A} a.

(** The parts of an [openai] chat completion that the backend reads.  The
    backend is handed whatever the service answered: any of the attributes
    it reads may be missing from the object or be [None]. *)
Record CompletionUsage : Type := mkUsage {
  prompt_tokens : attr Z;
  completion_tokens : attr Z
}.

Record ChatCompletionMessage : Type := mkMessage {
  message_content : attr pystr
}.

Record Choice : Type := mkChoice {
  choice_message : attr ChatCompletionMessage
}.

Record ChatCompletion : Type := mkCompletion {
  choices : attr (list Choice);
  usage : attr CompletionUsage
}.

(** The request: one part of a message's [content] list, a message, and the
    keyword arguments of [client.chat.completions.create]. *)
Inductive ContentPart : Type :=
  | image_url_part (url detail : pystr)
  | text_part (text : pystr).

Record MessageParam : Type := mkMessageParam {
  param_role : pystr;
  param_content : list ContentPart
}.

Record RequestKwargs : Type := mkKwargs {
  kw_model : pystr;
  kw_messages : list MessageParam;
  kw_max_tokens : option Z
}.

(** An [openai.OpenAI] client object: its identity and what it was built
    from. *)
Record OpenAI : Type := mkOpenAI {
  client_id : nat;
  client_api_key : pystr;
  client_base_url : pystr
}.

(** [getattr(o, name, None)]. *)
Definition getattr_none {A} (a : attr A) : option A :=
  match a with
  | Present v => Some v
  | Absent | IsNone => None
  end.

(** [getattr(o, name, default) or default] for an [int] attribute. *)
Definition getattr_or (a : attr Z) (default : Z) : Z :=
  let v : option Z :=
    match a with
    | Absent => Some default
    | IsNone => None
    | Present n => Some n
    end in
  match v with
  | None => default
  | Some n => if (n =? 0)%Z then default else n
  end.

(* ===================================================================== *)
(** ** pdf_craft/common: remove_surrogates *)
(* ===================================================================== *)

Definition is_surrogate (c : codepoint) : bool :=
  ((55296 <=? c) && (c <=? 57343))%N.

(** Modelled from the spec: [remove_surrogates] is defined in
    [pdf_craft/common], which is not among the sources; the spec says that
    normalization strips the surrogate code points (U+D800 to U+DFFF) from
    the text and keeps everything else. *)
Definition remove_surrogates (text : pystr) : pystr :=
  List.filter (fun c => negb (is_surrogate c)) text.

(* ===================================================================== *)
(** ** base64 *)
(* ===================================================================== *)

Definition b64_alphabet : pystr :=
  py "ABCDEFGHIJKLMNOPQRSTUVWXYZabcdefghijklmnopqrstuvwxyz0123456789+/".

Definition b64_digit (i : N) : codepoint :=
  nth (N.to_nat i) b64_alphabet 0%N.

Definition b64_pad : codepoint := 61%N.

(** [base64.b64encode(data).decode("ascii")]. *)
Fixpoint b64encode (data : list Byte.byte) : pystr :=
  match data with
  | [] => []
  | [a] =>
      let x := Byte.to_N a in
      [b64_digit (x / 4); b64_digit ((x mod 4) * 16); b64_pad; b64_pad]%N
  | [a; b] =>
      let x := Byte.to_N a in
      let y := Byte.to_N b in
      [b64_digit (x / 4); b64_digit ((x mod 4) * 16 + y / 16);
       b64_digit ((y mod 16) * 4); b64_pad]%N
  | a :: b :: c :: rest =>
      let x := Byte.to_N a in
      let y := Byte.to_N b in
      let z := Byte.to_N c in
      [b64_digit (x / 4); b64_digit ((x mod 4) * 16 + y / 16);
       b64_digit ((y mod 16) * 4 + z / 64); b64_digit (z mod 64)]%N
      ++ b64encode rest
  end.

(* ===================================================================== *)
(** ** The backend instance and its surroundings *)
(* ===================================================================== *)

(** The attributes [__init__] gives an [APIPageExtractor]. *)
Record APIPageExtractor : Type := mkExtractor {
  _api_key : pystr;
  _base_url : pystr;
  _model : pystr;
  _client : option OpenAI
}.

(** What the backend calls but does not define.  [Ext] is the state of
    everything outside the backend instance (the network, the caller's
    cancellation flag); each outside call is a transition on it.
    [check_aborted] and [AbortedCheck] belong to [pdf_craft/metering.py],
    [AssetHub] to [pdf_craft/common], [DeepSeekOCRSize] to
    [pdf_craft/pdf/types.py]; none of them is among the sources, so they
    are parameters here, as are the calls into [PIL] and [openai]. *)
Class Runtime : Type := {
  Ext : Type;
  AssetHub : Type;
  DeepSeekOCRSize : Type;
  AbortedCheck : Type;
  (** [check_aborted(aborted)] *)
  check_aborted : AbortedCheck -> Ext -> result unit * Ext;
  (** [image.save(buf, format="PNG"); buf.getvalue()] *)
  Image_save_png : Image -> result (list Byte.byte);
  (** [OpenAI(api_key=..., base_url=...)] *)
  OpenAI_init : pystr -> pystr -> Ext -> result unit * Ext;
  (** [client.chat.completions.create] applied to the keyword arguments *)
  chat_completions_create :
    OpenAI -> RequestKwargs -> Ext -> result ChatCompletion * Ext
}.

(** What an observer of the transport sees. *)
Inductive Event : Type :=
  | client_constructed (c : OpenAI)
  | request_issued (c : OpenAI) (kwargs : RequestKwargs).

(** The state a call runs in: the backend instance [self], the outside
    state, the number of client objects allocated so far (object identity)
    and the observed events, oldest first. *)
Record World `{Runtime} : Type := mkWorld {
  self : APIPageExtractor;
  ext : Ext;
  allocated : nat;
  trace : list Event
}.
Arguments mkWorld {_} self ext allocated trace.

(** The keyword arguments of one [image2page] call. *)
Record Image2PageArgs `{Runtime} : Type := mkArgs {
  arg_image : Image;
  arg_page_index : Z;
  arg_asset_hub : AssetHub;
  arg_ocr_size : DeepSeekOCRSize;
  arg_includes_footnotes : bool;
  arg_includes_raw_image : bool;
  arg_plot_path : option pystr;
  arg_max_tokens : option Z;
  arg_max_output_tokens : option Z;
  arg_device_number : option Z;
  arg_aborted : AbortedCheck
}.
Arguments mkArgs {_}.

(* ===================================================================== *)
(** ** The state-and-exception monad *)
(* ===================================================================== *)

Section Monad.
Context `{Runtime}.

Definition M (A : Type) : Type := World -> result A * World.

Definition ret {A} (a : A) : M A := fun w => (Return a, w).

Definition raise {A} (e : PyExc) : M A := fun w => (Raise e, w).

Definition bind {A B} (m : M A) (k : A -> M B) : M B :=
  fun w =>
    match m w with
    | (Return a, w') => k a w'
    | (Raise e, w') => (Raise e, w')
    end.

(** [try: body / except Exception as err: handler(err)]: an exception that
    is not an instance of [Exception] is not caught. *)
Definition try_except_Exception {A} (body : M A) (handler : PyExc -> M A)
    : M A :=
  fun w =>
    match body w with
    | (Return a, w') => (Return a, w')
    | (Raise e, w') =>
        if isinstance e cls_Exception then handler e w' else (Raise e, w')
    end.

Definition get_self : M APIPageExtractor := fun w => (Return (self w), w).

Definition set_client (c : OpenAI) : M unit :=
  fun w =>
    let s := self w in
    (Return tt,
     mkWorld (mkExtractor (_api_key s) (_base_url s) (_model s) (Some c))
             (ext w) (allocated w) (trace w)).

Definition emit (ev : Event) : M unit :=
  fun w => (Return tt, mkWorld (self w) (ext w) (allocated w) (trace w ++ [ev])).

(** A call that only touches the outside state. *)
Definition outside {A} (f : Ext -> result A * Ext) : M A :=
  fun w =>
    let (r, x) := f (ext w) in
    (r, mkWorld (self w) x (allocated w) (trace w)).

(** A pure computation that may raise. *)
Definition lift {A} (r : result A) : M A := fun w => (r, w).

(** A fresh object identity. *)
Definition fresh_id : M nat :=
  fun w => (Return (allocated w),
            mkWorld (self w) (ext w) (S (allocated w)) (trace w)).
End Monad.

Notation "x <- m ;; k" := (bind m (fun x => k))
  (at level 100, m at next level, right associativity).
Notation "m ;;; k" := (bind m (fun _ => k))
  (at level 100, right associativity).

(* ===================================================================== *)
(** ** pdf_craft/pdf/api_extractor.py *)
(* ===================================================================== *)

Definition DEFAULT_OCR_API_BASE_URL : pystr := py "https://api.siliconflow.cn/v1".
Definition DEFAULT_OCR_API_MODEL : pystr := py "DeepSeek/DeepSeek-OCR".

Definition _normalize_text (text : option pystr) : pystr :=
  match text with
  | None | Some [] => []
  | Some t => strip (remove_surrogates t)
  end.

(** [APIPageExtractor.__init__(api_key, base_url, model)]. *)
Definition APIPageExtractor__init__ (api_key base_url model : pystr)
    : APIPageExtractor :=
  mkExtractor api_key (rstrip base_url (py "/")) model None.

(** The local [messages] of [image2page], as a function of the data URL. *)
Definition image2page_messages (url : pystr) : list MessageParam :=
  let prompt := py "<image>" ++ [10%N] ++ py "Convert the document to markdown." in
  [ mkMessageParam (py "user")
      [ image_url_part url (py "high"); text_part prompt ] ].

(** The local [kwargs] of [image2page] when the request is issued. *)
Definition image2page_kwargs (model : pystr) (messages : list MessageParam)
    (max_output_tokens : option Z) : RequestKwargs :=
  let kwargs := mkKwargs model messages None in
  match max_output_tokens with
  | Some n => mkKwargs (kw_model kwargs) (kw_messages kwargs) (Some n)
  | None => kwargs
  end.

(** The local [content] of [image2page], the value of
    [(response.choices[0].message.content or "").strip() if response.choices else ""].
    [choices], [message] and [content] are read by plain attribute access,
    which raises [AttributeError] on an object that does not have the
    attribute, [None] included. *)
Definition image2page_content (response : ChatCompletion) : result pystr :=
  match choices response with
  | Absent => Raise (no_attribute "ChatCompletion" "choices")
  | IsNone | Present [] => Return []
  | Present (c :: _) =>
      match choice_message c with
      | Absent => Raise (no_attribute "Choice" "message")
      | IsNone => Raise (no_attribute "NoneType" "content")
      | Present message =>
          match message_content message with
          | Absent => Raise (no_attribute "ChatCompletionMessage" "content")
          | content => Return (strip (or_empty (getattr_none content)))
          end
      end
  end.

Section APIPageExtractor.
Context `{Runtime}.

Definition _image_to_base64_data_url (image : Image) : result pystr :=
  match Image_save_png image with
  | Raise e => Raise e
  | Return buf => Return (py "data:image/png;base64," ++ b64encode buf)
  end.

(** [OpenAI(api_key=..., base_url=...)]: a new object when the library's
    constructor does not raise. *)
Definition OpenAI_new (api_key base_url : pystr) : M OpenAI :=
  outside (OpenAI_init api_key base_url) ;;;
  i <- fresh_id ;;
  let c := mkOpenAI i api_key base_url in
  emit (client_constructed c) ;;;
  ret c.

Definition _get_client : M OpenAI :=
  s <- get_self ;;
  match _client s with
  | None =>
      c <- OpenAI_new (_api_key s) (_base_url s) ;;
      set_client c ;;;
      ret c
  | Some c => ret c
  end.

(** [client.chat.completions.create] on a given client. *)
Definition client_chat_completions_create (client : OpenAI)
    (kwargs : RequestKwargs) : M ChatCompletion :=
  emit (request_issued client kwargs) ;;;
  outside (chat_completions_create client kwargs).

Definition download_models (revision : option pystr) : M unit := ret tt.

Definition load_models : M unit := ret tt.

Definition image2page (a : Image2PageArgs) : M Page :=
  let image := arg_image a in
  let page_index := arg_page_index a in
  outside (check_aborted (arg_aborted a)) ;;;
  let raw_image := if arg_includes_raw_image a then Some image else None in
  url <- lift (_image_to_base64_data_url image) ;;
  let messages := image2page_messages url in
  response <-
    try_except_Exception
      (client <- _get_client ;;
       s <- get_self ;;
       let kwargs :=
         image2page_kwargs (_model s) messages (arg_max_output_tokens a) in
       client_chat_completions_create client kwargs)
      (fun err =>
         raise (OCRError
                  (py "OCR API request failed for page "
                   ++ str_of_int page_index ++ py ": " ++ exc_message err)
                  page_index 1 (Some err))) ;;
  outside (check_aborted (arg_aborted a)) ;;;
  content <- lift (image2page_content response) ;;
  let '(input_tokens, output_tokens) :=
    match getattr_none (usage response) with
    | Some u =>
        (getattr_or (prompt_tokens u) 0, getattr_or (completion_tokens u) 0)
    | None => (0, 0)
    end in
  let '(width, height) := image_size image in
  let full_det := (0, 0, width, height) in
  let layout :=
    mkPageLayout (py "text") full_det (_normalize_text (Some content)) 0 None in
  ret (mkPage page_index raw_image [layout] [] input_tokens output_tokens).

(** The operations of one backend instance, as a caller can invoke them:
    the three of the [PageExtractorBackend] protocol and the private
    [_get_client]. *)
Inductive BackendCall : Type :=
  | call_download_models (revision : option pystr)
  | call_load_models
  | call_image2page (a : Image2PageArgs)
  | call__get_client.

(** The world after one call; the caller keeps the instance whether the
    call returned or raised. *)
Definition after_call (c : BackendCall) (w : World) : World :=
  match c with
  | call_download_models revision => snd (download_models revision w)
  | call_load_models => snd (load_models w)
  | call_image2page a => snd (image2page a w)
  | call__get_client => snd (_get_client w)
  end.

Definition after_calls (cs : list BackendCall) (w : World) : World :=
  fold_left (fun w c => after_call c w) cs w.

(** The two lifecycle hooks of the protocol. *)
Inductive LifecycleCall : Type :=
  | hook_download_models (revision : option pystr)
  | hook_load_models.

Definition run_hook (h : LifecycleCall) : M unit :=
  match h with
  | hook_download_models revision => download_models revision
  | hook_load_models => load_models
  end.

(** The hooks called one after the other, as a Python block would: the
    first exception ends the block. *)
Fixpoint run_hooks (hs : list LifecycleCall) : M unit :=
  match hs with
  | [] => ret tt
  | h :: rest => run_hook h ;;; run_hooks rest
  end.
End APIPageExtractor.

(** [create_api_extractor_from_env()], given [os.environ]. *)
Definition create_api_extractor_from_env (environ : gmap string pystr)
    : option APIPageExtractor :=
  let api_key :=
    match environ !! "SILICONFLOW_API_KEY" with
    | Some (c :: r) => Some (c :: r)
    | _ => environ !! "OCR_API_KEY"
    end in
  if negb (str_truthy api_key) then None
  else
    let base_url := default DEFAULT_OCR_API_BASE_URL (environ !! "OCR_API_BASE_URL") in
    let model := default DEFAULT_OCR_API_MODEL (environ !! "OCR_API_MODEL") in
    Some (APIPageExtractor__init__ (or_empty api_key) base_url model).

(* ===================================================================== *)
(** ** Definitions used to state the properties *)
(* ===================================================================== *)

(** The depth of the [__cause__] chain of an exception. *)
Fixpoint cause_depth (e : PyExc) : nat :=
  match e with
  | mkExc _ _ _ (Some c) => S (cause_depth c)
  | mkExc _ _ _ None => 0%nat
  end.

(** What the specification calls the recognized text of a response: the
    content of the first choice, the empty string when there is no choice
    or no content. *)
Definition first_choice_content (response : ChatCompletion) : pystr :=
  match choices response with
  | Present (c :: _) =>
      match choice_message c with
      | Present message => or_empty (getattr_none (message_content message))
      | Absent | IsNone => []
      end
  | Absent | IsNone | Present [] => []
  end.

(** The first choice can be read: the response has its [choices]
    attribute and, when there is a first choice, that choice has a message
    and the message has its [content] attribute ([None] or a string). *)
Definition first_choice_readable (response : ChatCompletion) : bool :=
  match choices response with
  | Absent => false
  | IsNone | Present [] => true
  | Present (c :: _) =>
      match choice_message c with
      | Present message =>
          match message_content message with
          | Absent => false
          | IsNone | Present _ => true
          end
      | Absent | IsNone => false
      end
  end.

(** What the specification calls the usage accounting of a response: a
    count is that of the usage object, zero when the usage object or the
    count is absent or [None]. *)
Definition usage_count (response : ChatCompletion)
    (field : CompletionUsage -> attr Z) : Z :=
  match usage response with
  | Present u =>
      match field u with
      | Present n => n
      | Absent | IsNone => 0
      end
  | Absent | IsNone => 0
  end.

(** How many clients the trace has seen constructed. *)
Fixpoint constructions (t : list Event) : nat :=
  match t with
  | [] => 0%nat
  | client_constructed _ :: r => S (constructions r)
  | request_issued _ _ :: r => constructions r
  end.

Section Runs.
Context `{Runtime}.

(** Exactly as many clients were constructed as the instance holds. *)
Definition single_client (w : World) : Prop :=
  constructions (trace w)
  = match _client (self w) with Some _ => 1 | None => 0 end%nat.

(** [image2page a] started in [w] gets as far as the transport: the first
    checkpoint passes and leaves the outside state [x1], the image is
    encoded, the client [client] is obtained (world [w2] then), and
    [kwargs] is what the request is about to be issued with. *)
Definition request_ready (a : Image2PageArgs) (w : World)
    (client : OpenAI) (kwargs : RequestKwargs) (w2 : World) : Prop :=
  exists x1 buf,
    check_aborted (arg_aborted a) (ext w) = (Return tt, x1)
    /\ Image_save_png (arg_image a) = Return buf
    /\ _get_client (mkWorld (self w) x1 (allocated w) (trace w))
       = (Return client, w2)
    /\ kwargs
       = image2page_kwargs (_model (self w2))
           (image2page_messages (py "data:image/png;base64," ++ b64encode buf))
           (arg_max_output_tokens a).

(** The world in which the post-response checkpoint has run: the request
    is in the trace and the outside state is [x]. *)
Definition after_request (w2 : World) (client : OpenAI)
    (kwargs : RequestKwargs) (x : Ext) : World :=
  mkWorld (self w2) x (allocated w2)
          (trace w2 ++ [request_issued client kwargs]).

(** The page [image2page] builds from the arguments and the response. *)
Definition response_page (a : Image2PageArgs) (response : ChatCompletion)
    : Page :=
  mkPage (arg_page_index a)
         (if arg_includes_raw_image a then Some (arg_image a) else None)
         [ mkPageLayout (py "text")
             (0, 0, fst (image_size (arg_image a)), snd (image_size (arg_image a)))
             (_normalize_text (Some (strip (first_choice_content response))))
             0 None ]
         []
         (getattr_or
            (match getattr_none (usage response) with
             | Some u => prompt_tokens u | None => Absent end) 0)
         (getattr_or
            (match getattr_none (usage response) with
             | Some u => completion_tokens u | None => Absent end) 0).
End Runs.

(* ===================================================================== *)
(** ** Test doubles *)
(* ===================================================================== *)

(** A runtime for the examples.  The outside state counts the probe calls
    made so far; a probe is a predicate on that count, and the check raises
    [AbortError()] when the probe answers [True].  The PNG encoder hands
    back the raster, the client constructor succeeds, and the transport
    answers every request with [reply]. *)
Definition double (reply : result ChatCompletion) : Runtime := {|
  Ext := nat;
  AssetHub := unit;
  DeepSeekOCRSize := unit;
  AbortedCheck := nat -> bool;
  check_aborted := fun aborted n =>
    if aborted n then (Raise AbortError, S n) else (Return tt, S n);
  Image_save_png := fun image => Return (image_raster image);
  OpenAI_init := fun _ _ n => (Return tt, n);
  chat_completions_create := fun _ _ n => (reply, n)
|}.

Definition double_image : Image :=
  mkImage (640, 480) [Byte.x4d; Byte.x61; Byte.x6e].

Definition double_args (reply : result ChatCompletion)
    (aborted : nat -> bool) : @Image2PageArgs (double reply) :=
  @mkArgs (double reply) double_image 7 tt tt false false None None (Some 256)
          None aborted.

Definition double_world (reply : result ChatCompletion)
    : @World (double reply) :=
  @mkWorld (double reply)
    (APIPageExtractor__init__ (py "sk-test") (py "https://ocr.example/v1/")
                              DEFAULT_OCR_API_MODEL)
    0%nat 0%nat [].

Definition never : nat -> bool := fun _ => false.
Definition always : nat -> bool := fun _ => true.
Definition on_second_call : nat -> bool := fun n => (1 <=? n)%nat.

Definition hello_reply : ChatCompletion :=
  mkCompletion
    (Present [ mkChoice (Present (mkMessage (Present (py "  Hello" ++ [10%N])))) ])
    (Present (mkUsage (Present 12) (Present 5))).

(** A reply whose first choice has no message, and one whose message has
    no content attribute; neither has a usage object. *)
Definition messageless_reply : ChatCompletion :=
  mkCompletion (Present [ mkChoice Absent ]) Absent.

Definition contentless_reply : ChatCompletion :=
  mkCompletion (Present [ mkChoice (Present (mkMessage Absent)) ]) Absent.

Definition boom : PyExc :=
  mkExc (cls_other "openai.APIConnectionError" [] :: exception_mro)
        (py "Connection error.") ∅ None.

(** The client the double's first request constructs, the keyword
    arguments of that request, and the world once the client is there. *)
Definition double_client : OpenAI :=
  mkOpenAI 0 (py "sk-test") (py "https://ocr.example/v1").

Definition double_kwargs : RequestKwargs :=
  image2page_kwargs DEFAULT_OCR_API_MODEL
    (image2page_messages (py "data:image/png;base64,TWFu")) (Some 256).

Definition double_ready (reply : result ChatCompletion)
    : @World (double reply) :=
  @mkWorld (double reply)
    (mkExtractor (py "sk-test") (py "https://ocr.example/v1")
                 DEFAULT_OCR_API_MODEL (Some double_client))
    1%nat 1%nat [client_constructed double_client].

(** An error of the optional library that is of its base interruption type
    and of neither recognized subtype, with the library's three classes. *)
Definition dpe_library : DocPageExtractor :=
  mkDPE (cls_other "doc_page_extractor.AbortError" [])
        (cls_other "doc_page_extractor.ExtractionAbortedError" [])
        (cls_other "doc_page_extractor.TokenLimitError" []).

Definition dpe_other_interruption : PyExc :=
  mkExc (cls_other "doc_page_extractor.TimeLimitError" []
         :: cls_other "doc_page_extractor.ExtractionAbortedError" []
         :: exception_mro)
        [] {["input_tokens" := 3]} None.

(** An [AbortError] to which the raiser attached token counts. *)
Definition abort_with_counts : PyExc :=
  mkExc (cls_AbortError :: exception_mro) []
        (<["output_tokens" := 2]> {["input_tokens" := 40]}) None.

(* ===================================================================== *)
(** ** Further definitions used to state properties *)
(* ===================================================================== *)


(** An error that is both a quota signal and an abort signal. *)
Definition quota_and_abort : PyExc :=
  mkExc (cls_other "Both" [] :: cls_TokenLimitError :: cls_AbortError
         :: exception_mro)
        [] (<["output_tokens" := 6]> {["input_tokens" := 5]}) None.

(** Errors of the optional library: an explicit abort, a token limit, and
    an abort that does not derive from the base interruption type. *)
Definition dpe_abort : PyExc :=
  mkExc (DPEAbortError dpe_library :: ExtractionAbortedError dpe_library
         :: exception_mro)
        [] (<["output_tokens" := 9]> {["input_tokens" := 3]}) None.

Definition dpe_token_limit : PyExc :=
  mkExc (DPETokenLimitError dpe_library :: ExtractionAbortedError dpe_library
         :: exception_mro)
        [] (<["output_tokens" := 8]> {["input_tokens" := 70]}) None.

Definition dpe_detached_abort : PyExc :=
  mkExc (DPEAbortError dpe_library :: exception_mro)
        [] (<["output_tokens" := 9]> {["input_tokens" := 3]}) None.

(** How many requests the trace has seen issued. *)
Fixpoint requests (t : list Event) : nat :=
  match t with
  | [] => 0%nat
  | request_issued _ _ :: r => S (requests r)
  | client_constructed _ :: r => requests r
  end.

(** The client an instance holds was built from the instance's own key and
    base URL. *)
Definition client_matches (s : APIPageExtractor) : Prop :=
  forall c, _client s = Some c ->
            client_api_key c = _api_key s /\ client_base_url c = _base_url s.

(** What the [except] clause of [image2page] makes of an error of the
    request phase. *)
Definition request_phase_error (page_index : Z) (err : PyExc) : PyExc :=
  if isinstance err cls_Exception
  then OCRError (py "OCR API request failed for page "
                 ++ str_of_int page_index ++ py ": " ++ exc_message err)
                page_index 1 (Some err)
  else err.

Section MoreRuns.
Context `{Runtime}.

(** Every request of the trace was issued on the client the instance
    holds. *)
Definition requests_on_client (w : World) : Prop :=
  forall c kwargs,
    In (request_issued c kwargs) (trace w) -> _client (self w) = Some c.

(** Two calls of [image2page] agree on the arguments the backend reads. *)
Definition same_read_arguments (a b : Image2PageArgs) : Prop :=
  arg_image a = arg_image b
  /\ arg_page_index a = arg_page_index b
  /\ arg_includes_raw_image a = arg_includes_raw_image b
  /\ arg_max_output_tokens a = arg_max_output_tokens b
  /\ arg_aborted a = arg_aborted b.
End MoreRuns.

(** Two calls that differ in every argument the backend does not read. *)
Definition double_args_other (reply : result ChatCompletion)
    (aborted : nat -> bool) : @Image2PageArgs (double reply) :=
  @mkArgs (double reply) double_image 7 tt tt true false
          (Some (py "/tmp/plot.png")) (Some 4096) (Some 256) (Some 1) aborted.

(** A runtime whose client constructor raises [boom] once and succeeds
    afterwards: the outside state counts the attempts. *)
Definition flaky_constructor : Runtime := {|
  Ext := nat;
  AssetHub := unit;
  DeepSeekOCRSize := unit;
  AbortedCheck := unit;
  check_aborted := fun _ n => (Return tt, n);
  Image_save_png := fun image => Return (image_raster image);
  OpenAI_init := fun _ _ n =>
    match n with
    | O => (Raise boom, S n)
    | S _ => (Return tt, S n)
    end;
  chat_completions_create := fun _ _ n => (Return hello_reply, n)
|}.

Definition flaky_world : @World flaky_constructor :=
  @mkWorld flaky_constructor
    (APIPageExtractor__init__ (py "sk-test") (py "https://ocr.example/v1")
                              DEFAULT_OCR_API_MODEL)
    0%nat 0%nat [].

(** A runtime in which the PNG encoder refuses the image. *)
Definition unencodable : Runtime := {|
  Ext := nat;
  AssetHub := unit;
  DeepSeekOCRSize := unit;
  AbortedCheck := unit;
  check_aborted := fun _ n => (Return tt, n);
  Image_save_png := fun _ => Raise boom;
  OpenAI_init := fun _ _ n => (Return tt, n);
  chat_completions_create := fun _ _ n => (Return hello_reply, n)
|}.

(** An environment with an empty [SILICONFLOW_API_KEY], a key in
    [OCR_API_KEY] and a base URL that ends with a slash. *)
Definition fallback_environ : gmap string pystr :=
  <["SILICONFLOW_API_KEY" := []]>
    (<["OCR_API_KEY" := py "sk-fallback"]>
       {["OCR_API_BASE_URL" := py "https://ocr.example/v1/"]}).

(* ===================================================================== *)
(** ** Examples of the model at work *)
(* ===================================================================== *)

Example b64encode_Man :
  b64encode [Byte.x4d; Byte.x61; Byte.x6e] = py "TWFu"
  /\ b64encode [Byte.x4d; Byte.x61] = py "TWE="
  /\ b64encode [Byte.x4d] = py "TQ==".
Proof. repeat split; reflexivity. Qed.

Example double_hello :
  fst (@image2page (double (Return hello_reply))
         (double_args (Return hello_reply) never)
         (double_world (Return hello_reply)))
  = Return (mkPage 7 None
              [mkPageLayout (py "text") (0, 0, 640, 480) (py "Hello") 0 None]
              [] 12 5).
Proof. vm_compute. reflexivity. Qed.

Example rstrip_base_url :
  _base_url (APIPageExtractor__init__ [] (py "https://ocr.example/v1//") [])
  = py "https://ocr.example/v1".
Proof. reflexivity. Qed.

Example str_of_int_examples :
  str_of_int 0 = py "0" /\ str_of_int 42 = py "42" /\ str_of_int (-3) = py "-3".
Proof. repeat split; reflexivity. Qed.

(** Proof steps for runs of the monad. *)
Ltac step_world := cbn [self ext allocated trace fst snd _client].

Ltac enter_image2page :=
  unfold image2page, bind, outside, lift, try_except_Exception,
    _image_to_base64_data_url.

Ltac enter_request :=
  unfold get_self, client_chat_completions_create, bind, emit, outside;
  step_world.

(* ===================================================================== *)
(** ** Stripping *)
(* ===================================================================== *)

Section Strip.
Variable p : codepoint -> bool.

Lemma lstrip_by_all (l : pystr) :
  forallb p l = true -> lstrip_by p l = [].
Proof.
  induction l as [|c l IH]; simpl; [reflexivity|].
  intros Hl. apply andb_prop in Hl as [Hc Hl]. rewrite Hc. auto.
Qed.

Lemma lstrip_by_app_l (l s : pystr) :
  forallb p l = true -> lstrip_by p (l ++ s) = lstrip_by p s.
Proof.
  induction l as [|c l IH]; simpl; [reflexivity|].
  intros Hl. apply andb_prop in Hl as [Hc Hl]. rewrite Hc. auto.
Qed.

Lemma forallb_rev (l : pystr) : forallb p (rev l) = forallb p l.
Proof.
  induction l as [|c l IH]; simpl; [reflexivity|].
  rewrite forallb_app, IH. simpl. rewrite andb_true_r. apply andb_comm.
Qed.

Lemma rstrip_by_app_r (s r : pystr) :
  forallb p r = true -> rstrip_by p (s ++ r) = rstrip_by p s.
Proof.
  intros Hr. unfold rstrip_by. rewrite rev_app_distr.
  rewrite lstrip_by_app_l; [reflexivity|]. now rewrite forallb_rev.
Qed.

Lemma lstrip_by_split (s : pystr) :
  exists l, s = l ++ lstrip_by p s /\ forallb p l = true.
Proof.
  induction s as [|c s [l [Hs Hl]]]; simpl.
  - exists []. split; reflexivity.
  - destruct (p c) eqn:Hc.
    + exists (c :: l). simpl. rewrite Hc, Hl. split; [|reflexivity].
      now rewrite <- Hs.
    + exists []. split; reflexivity.
Qed.

Lemma rstrip_by_split (s : pystr) :
  exists r, s = rstrip_by p s ++ r /\ forallb p r = true.
Proof.
  destruct (lstrip_by_split (rev s)) as [l [Hs Hl]].
  exists (rev l). split; [|now rewrite forallb_rev].
  unfold rstrip_by. rewrite <- rev_app_distr, <- Hs. now rewrite rev_involutive.
Qed.

Lemma strip_by_app_r (s r : pystr) :
  forallb p r = true ->
  rstrip_by p (lstrip_by p (s ++ r)) = rstrip_by p (lstrip_by p s).
Proof.
  intros Hr. induction s as [|c s IH]; simpl.
  - now rewrite lstrip_by_all.
  - destruct (p c); [exact IH|].
    now rewrite app_comm_cons, rstrip_by_app_r.
Qed.
End Strip.

Lemma strip_padding (l s r : pystr) :
  forallb is_whitespace l = true -> forallb is_whitespace r = true ->
  strip (l ++ s ++ r) = strip s.
Proof.
  intros Hl Hr. unfold strip.
  rewrite lstrip_by_app_l by assumption. now apply strip_by_app_r.
Qed.

Lemma strip_split (s : pystr) :
  exists l r, s = l ++ strip s ++ r
              /\ forallb is_whitespace l = true
              /\ forallb is_whitespace r = true.
Proof.
  destruct (lstrip_by_split is_whitespace s) as [l [Hs Hl]].
  destruct (rstrip_by_split is_whitespace (lstrip_by is_whitespace s))
    as [r [Hm Hr]].
  exists l, r. unfold strip. rewrite <- Hm. auto.
Qed.

Lemma strip_whitespace (s : pystr) :
  forallb is_whitespace s = true -> strip s = [].
Proof. intros Hs. unfold strip. now rewrite lstrip_by_all. Qed.

Lemma remove_surrogates_app (s t : pystr) :
  remove_surrogates (s ++ t) = remove_surrogates s ++ remove_surrogates t.
Proof. unfold remove_surrogates. apply List.filter_app. Qed.

Lemma remove_surrogates_whitespace (s : pystr) :
  forallb is_whitespace s = true ->
  forallb is_whitespace (remove_surrogates s) = true.
Proof.
  induction s as [|c s IH]; simpl; [reflexivity|].
  intros Hs. apply andb_prop in Hs as [Hc Hs].
  destruct (negb (is_surrogate c)); simpl; [rewrite Hc|]; auto.
Qed.

(** Trimming before the surrogates are removed changes nothing once the
    result is trimmed again. *)
Lemma strip_remove_surrogates_strip (s : pystr) :
  strip (remove_surrogates (strip s)) = strip (remove_surrogates s).
Proof.
  destruct (strip_split s) as [l [r [Hs [Hl Hr]]]].
  rewrite Hs at 2. rewrite !remove_surrogates_app.
  symmetry. apply strip_padding; now apply remove_surrogates_whitespace.
Qed.

Lemma _normalize_text_Some (s : pystr) :
  _normalize_text (Some s) = strip (remove_surrogates s).
Proof. destruct s; reflexivity. Qed.

(* ===================================================================== *)
(** ** How a call to image2page runs *)
(* ===================================================================== *)

Section RunLemmas.
Context `{Runtime}.

Lemma image2page_content_readable response :
  first_choice_readable response = true ->
  image2page_content response = Return (strip (first_choice_content response)).
Proof.
  unfold first_choice_readable, image2page_content, first_choice_content.
  destruct (choices response) as [| |[|c rest]]; try discriminate;
    try reflexivity.
  destruct (choice_message c) as [| |message]; try discriminate.
  destruct (message_content message); try discriminate; reflexivity.
Qed.

Lemma image2page_content_unreadable response :
  first_choice_readable response = false ->
  exists e, image2page_content response = Raise e
            /\ isinstance e cls_AttributeError = true.
Proof.
  unfold first_choice_readable, image2page_content.
  destruct (choices response) as [| |[|c rest]]; try discriminate;
    [eexists; split; reflexivity|].
  destruct (choice_message c) as [| |message];
    try (intros _; eexists; split; reflexivity).
  destruct (message_content message); try discriminate.
  intros _. eexists. split; reflexivity.
Qed.

Lemma image2page_content_Return response content :
  image2page_content response = Return content ->
  first_choice_readable response = true.
Proof.
  destruct (first_choice_readable response) eqn:Hr; [reflexivity|].
  destruct (image2page_content_unreadable response Hr) as (e & -> & _).
  discriminate.
Qed.

Lemma response_page_eq a response (w : World) :
  (let '(input_tokens, output_tokens) :=
     match getattr_none (usage response) with
     | Some u =>
         (getattr_or (prompt_tokens u) 0, getattr_or (completion_tokens u) 0)
     | None => (0, 0)
     end in
   let '(width, height) := image_size (arg_image a) in
   ret (mkPage (arg_page_index a)
          (if arg_includes_raw_image a then Some (arg_image a) else None)
          [mkPageLayout (py "text") (0, 0, width, height)
             (_normalize_text (Some (strip (first_choice_content response))))
             0 None]
          [] input_tokens output_tokens)) w
  = (Return (response_page a response), w).
Proof.
  unfold response_page.
  destruct (getattr_none (usage response)), (image_size (arg_image a));
    reflexivity.
Qed.

(** Once the transport has answered and the second checkpoint has passed,
    the call returns the page of the response, unless reading the first
    choice raises. *)
Lemma image2page_answered a w client kwargs w2 response x3 x4 :
  request_ready a w client kwargs w2 ->
  chat_completions_create client kwargs (ext w2) = (Return response, x3) ->
  check_aborted (arg_aborted a) x3 = (Return tt, x4) ->
  image2page a w
  = (match image2page_content response with
     | Return _ => Return (response_page a response)
     | Raise e => Raise e
     end,
     after_request w2 client kwargs x4).
Proof.
  intros (x1 & buf & H1 & H2 & H3 & ->) H4 H5.
  enter_image2page. rewrite H1. step_world. rewrite H2, H3.
  enter_request. rewrite H4. step_world. rewrite H5. step_world.
  destruct (image2page_content response) as [content|e] eqn:Hcontent;
    [|reflexivity].
  pose proof (image2page_content_Return _ _ Hcontent) as Hr.
  rewrite (image2page_content_readable _ Hr) in Hcontent.
  injection Hcontent as <-. apply response_page_eq.
Qed.

Lemma image2page_returns a w client kwargs w2 response x3 x4 :
  request_ready a w client kwargs w2 ->
  chat_completions_create client kwargs (ext w2) = (Return response, x3) ->
  check_aborted (arg_aborted a) x3 = (Return tt, x4) ->
  first_choice_readable response = true ->
  image2page a w
  = (Return (response_page a response), after_request w2 client kwargs x4).
Proof.
  intros Hready Hcreate Hcheck Hr.
  rewrite (image2page_answered _ _ _ _ _ _ _ _ Hready Hcreate Hcheck).
  now rewrite (image2page_content_readable _ Hr).
Qed.

Lemma image2page_first_checkpoint a w sig x1 :
  check_aborted (arg_aborted a) (ext w) = (Raise sig, x1) ->
  image2page a w
  = (Raise sig, mkWorld (self w) x1 (allocated w) (trace w)).
Proof. intros H1. enter_image2page. now rewrite H1. Qed.

Lemma image2page_second_checkpoint a w client kwargs w2 response x3 sig x4 :
  request_ready a w client kwargs w2 ->
  chat_completions_create client kwargs (ext w2) = (Return response, x3) ->
  check_aborted (arg_aborted a) x3 = (Raise sig, x4) ->
  image2page a w = (Raise sig, after_request w2 client kwargs x4).
Proof.
  intros (x1 & buf & H1 & H2 & H3 & ->) H4 H5.
  enter_image2page. rewrite H1. step_world. rewrite H2, H3.
  enter_request. rewrite H4. step_world. now rewrite H5.
Qed.

Lemma image2page_request_raises a w client kwargs w2 err x3 :
  request_ready a w client kwargs w2 ->
  chat_completions_create client kwargs (ext w2) = (Raise err, x3) ->
  image2page a w
  = (Raise (if isinstance err cls_Exception
            then OCRError
                   (py "OCR API request failed for page "
                    ++ str_of_int (arg_page_index a) ++ py ": "
                    ++ exc_message err)
                   (arg_page_index a) 1 (Some err)
            else err),
     after_request w2 client kwargs x3).
Proof.
  intros (x1 & buf & H1 & H2 & H3 & ->) H4.
  enter_image2page. rewrite H1. step_world. rewrite H2, H3.
  enter_request. rewrite H4. step_world.
  now destruct (isinstance err cls_Exception).
Qed.

(** A call that returns a page went all the way: both checkpoints passed,
    the transport answered and the first choice could be read. *)
Lemma image2page_Return_inv a w page w' :
  image2page a w = (Return page, w') ->
  exists client kwargs w2 response x3 x4,
    request_ready a w client kwargs w2
    /\ chat_completions_create client kwargs (ext w2) = (Return response, x3)
    /\ check_aborted (arg_aborted a) x3 = (Return tt, x4)
    /\ page = response_page a response
    /\ w' = after_request w2 client kwargs x4
    /\ first_choice_readable response = true.
Proof.
  destruct (check_aborted (arg_aborted a) (ext w)) as [[[]|e1] x1] eqn:H1.
  2:{ rewrite (image2page_first_checkpoint _ _ _ _ H1). discriminate. }
  destruct (Image_save_png (arg_image a)) as [buf|e2] eqn:H2.
  2:{ enter_image2page. rewrite H1. step_world. rewrite H2. discriminate. }
  destruct (_get_client (mkWorld (self w) x1 (allocated w) (trace w)))
    as [[client|e3] w2] eqn:H3.
  2:{ enter_image2page. rewrite H1. step_world. rewrite H2, H3.
      destruct (isinstance e3 cls_Exception); discriminate. }
  assert (Hready : request_ready a w client
            (image2page_kwargs (_model (self w2))
               (image2page_messages
                  (py "data:image/png;base64," ++ b64encode buf))
               (arg_max_output_tokens a)) w2)
    by (exists x1, buf; auto).
  destruct (chat_completions_create client
              (image2page_kwargs (_model (self w2))
                 (image2page_messages
                    (py "data:image/png;base64," ++ b64encode buf))
                 (arg_max_output_tokens a)) (ext w2))
    as [[response|e4] x3] eqn:H4.
  2:{ rewrite (image2page_request_raises _ _ _ _ _ _ _ Hready H4).
      discriminate. }
  destruct (check_aborted (arg_aborted a) x3) as [[[]|e5] x4] eqn:H5.
  2:{ rewrite (image2page_second_checkpoint _ _ _ _ _ _ _ _ _ Hready H4 H5).
      discriminate. }
  rewrite (image2page_answered _ _ _ _ _ _ _ _ Hready H4 H5).
  destruct (image2page_content response) as [content|e6] eqn:H6;
    [|discriminate].
  intros [= <- <-].
  exists client. eexists. exists w2, response, x3, x4.
  repeat split; try assumption.
  exact (image2page_content_Return _ _ H6).
Qed.
End RunLemmas.

(* ===================================================================== *)
(** ** The transport client *)
(* ===================================================================== *)

Section Client.
Context `{Runtime}.

Lemma constructions_app (t u : list Event) :
  constructions (t ++ u) = (constructions t + constructions u)%nat.
Proof.
  induction t as [|[c|c k] t IH]; simpl; [reflexivity| |assumption].
  now rewrite IH.
Qed.

Lemma _get_client_cached w c :
  _client (self w) = Some c -> _get_client w = (Return c, w).
Proof.
  intros Hc. unfold _get_client, bind, get_self. now rewrite Hc.
Qed.

Lemma _get_client_first w x :
  _client (self w) = None ->
  OpenAI_init (_api_key (self w)) (_base_url (self w)) (ext w) = (Return tt, x) ->
  let c := mkOpenAI (allocated w) (_api_key (self w)) (_base_url (self w)) in
  _get_client w
  = (Return c,
     mkWorld (mkExtractor (_api_key (self w)) (_base_url (self w))
                          (_model (self w)) (Some c))
             x (S (allocated w)) (trace w ++ [client_constructed c])).
Proof.
  intros Hc Hx. unfold _get_client, bind, get_self. rewrite Hc.
  unfold OpenAI_new, bind, outside. now rewrite Hx.
Qed.

Lemma _get_client_raises w e x :
  _client (self w) = None ->
  OpenAI_init (_api_key (self w)) (_base_url (self w)) (ext w) = (Raise e, x) ->
  _get_client w = (Raise e, mkWorld (self w) x (allocated w) (trace w)).
Proof.
  intros Hc Hx. unfold _get_client, bind, get_self. rewrite Hc.
  unfold OpenAI_new, bind, outside. now rewrite Hx.
Qed.

(** [_get_client] either leaves the instance and the trace alone, or
    stores a client where there was none and records its construction. *)
Lemma _get_client_footprint w :
  let w' := snd (_get_client w) in
  (self w' = self w /\ trace w' = trace w)
  \/ (_client (self w) = None
      /\ exists c, _client (self w') = Some c
                   /\ trace w' = trace w ++ [client_constructed c]).
Proof.
  destruct (_client (self w)) as [c|] eqn:Hc.
  - left. rewrite (_get_client_cached w c Hc). auto.
  - destruct (OpenAI_init (_api_key (self w)) (_base_url (self w)) (ext w))
      as [[[]|e] x] eqn:Hx.
    + right. split; [reflexivity|].
      rewrite (_get_client_first w x Hc Hx). step_world. eauto.
    + left. rewrite (_get_client_raises w e x Hc Hx). auto.
Qed.

(** [image2page] touches the instance and the trace only through
    [_get_client] and the request it issues. *)
Lemma image2page_footprint a w :
  let w' := snd (image2page a w) in
  (self w' = self w /\ trace w' = trace w)
  \/ exists x1,
       let g := snd (_get_client (mkWorld (self w) x1 (allocated w) (trace w))) in
       self w' = self g
       /\ (trace w' = trace g
           \/ exists c kwargs, trace w' = trace g ++ [request_issued c kwargs]).
Proof.
  enter_image2page.
  destruct (check_aborted (arg_aborted a) (ext w)) as [[[]|e1] x1];
    [|left; auto].
  step_world.
  destruct (Image_save_png (arg_image a)) as [buf|e2]; [|left; auto].
  right. exists x1.
  destruct (_get_client _) as [[client|e3] w2].
  - enter_request.
    destruct (chat_completions_create client _ (ext w2)) as [[response|e4] x3];
      step_world.
    + destruct (check_aborted (arg_aborted a) x3) as [[[]|e5] x4].
      * step_world.
        destruct (image2page_content response) as [content|e6];
          [|step_world; split; eauto].
        destruct (getattr_none (usage response)), (image_size (arg_image a));
          step_world; split; eauto.
      * step_world. split; eauto.
    + destruct (isinstance e4 cls_Exception); step_world; split; eauto.
  - destruct (isinstance e3 cls_Exception); step_world; auto.
Qed.

Lemma after_call_footprint call w :
  let w' := after_call call w in
  (self w' = self w /\ constructions (trace w') = constructions (trace w))
  \/ (_client (self w) = None
      /\ (exists c, _client (self w') = Some c)
      /\ constructions (trace w') = S (constructions (trace w))).
Proof.
  assert (Hg : forall v : World,
    let v' := snd (_get_client v) in
    (self v' = self v /\ constructions (trace v') = constructions (trace v))
    \/ (_client (self v) = None
        /\ (exists c, _client (self v') = Some c)
        /\ constructions (trace v') = S (constructions (trace v)))).
  { intros v. destruct (_get_client_footprint v) as [[Hs Ht]|[Hn [c [Hc Ht]]]].
    - left. cbn zeta. now rewrite Hs, Ht.
    - right. cbn zeta. rewrite Ht, constructions_app. simpl.
      repeat split; eauto. lia. }
  destruct call as [revision| |a|]; cbn [after_call].
  - left. auto.
  - left. auto.
  - destruct (image2page_footprint a w) as [[Hs Ht]|[x1 [Hs Ht]]].
    + left. cbn zeta. now rewrite Hs, Ht.
    + cbn zeta in *.
      assert (Hc : constructions (trace (snd (image2page a w)))
                   = constructions (trace (snd (_get_client
                       (mkWorld (self w) x1 (allocated w) (trace w)))))).
      { destruct Ht as [->|[c [k ->]]]; [reflexivity|].
        rewrite constructions_app. simpl. lia. }
      rewrite Hs, Hc.
      exact (Hg (mkWorld (self w) x1 (allocated w) (trace w))).
  - apply Hg.
Qed.

Lemma after_call_keeps_client call w c :
  _client (self w) = Some c -> _client (self (after_call call w)) = Some c.
Proof.
  intros Hc.
  destruct (after_call_footprint call w) as [[Hs _]|[Hn _]].
  - cbn zeta in Hs. now rewrite Hs.
  - congruence.
Qed.

Lemma after_calls_keeps_client calls w c :
  _client (self w) = Some c -> _client (self (after_calls calls w)) = Some c.
Proof.
  revert w. induction calls as [|call calls IH]; intros w Hc; [exact Hc|].
  apply IH. now apply after_call_keeps_client.
Qed.

Lemma after_call_single_client call w :
  single_client w -> single_client (after_call call w).
Proof.
  unfold single_client. intros Hw.
  destruct (after_call_footprint call w) as [[Hs Ht]|[Hn [[c Hc] Ht]]];
    cbn zeta in *.
  - now rewrite Hs, Ht.
  - rewrite Hc, Ht, Hw, Hn. reflexivity.
Qed.

Lemma after_calls_single_client calls w :
  single_client w -> single_client (after_calls calls w).
Proof.
  revert w. induction calls as [|call calls IH]; intros w Hw; [exact Hw|].
  apply IH. now apply after_call_single_client.
Qed.
End Client.

(* ===================================================================== *)
(** ** The classifier *)
(* ===================================================================== *)

Lemma isinstance_head c rest message dict cause :
  isinstance (mkExc (c :: rest) message dict cause) c = true.
Proof. unfold isinstance. apply bool_decide_eq_true. simpl. left. Qed.

Lemma get_attr_lookup e name v :
  lookup_attr e name = Some v -> get_attr e name = Return v.
Proof. unfold get_attr. now intros ->. Qed.

Lemma getattr_lookup e name v d :
  lookup_attr e name = Some v -> getattr e name d = v.
Proof. unfold getattr. now intros ->. Qed.

Lemma OCRError_attrs message page_index step_index cause :
  let e := OCRError message page_index step_index cause in
  isinstance e cls_OCRError = true
  /\ get_attr e "page_index" = Return page_index
  /\ get_attr e "step_index" = Return step_index
  /\ exc_cause e = cause
  /\ exc_message e = message.
Proof. repeat split. Qed.

Lemma TokenLimitError_attrs i o :
  lookup_attr (TokenLimitError i o) "input_tokens" = Some i
  /\ lookup_attr (TokenLimitError i o) "output_tokens" = Some o.
Proof. split; reflexivity. Qed.

(** An instance of [AbortError] that is not also a quota signal is
    classified as ABORT, with the counts [getattr] finds. *)
Lemma to_interrupted_error_abort dpe e :
  isinstance e cls_TokenLimitError = false ->
  isinstance e cls_AbortError = true ->
  to_interrupted_error dpe e
  = Return (Some (mkInterrupted ABORT
                    (mkMetering (getattr e "input_tokens" 0)
                                (getattr e "output_tokens" 0)))).
Proof. intros Hq Ha. unfold to_interrupted_error. now rewrite Hq, Ha. Qed.

(** For an instance of the class [AbortError] itself the counts are those
    attached to the instance, zero where none is attached. *)
Lemma getattr_AbortError e name :
  exc_mro e = cls_AbortError :: exception_mro ->
  name = "input_tokens" \/ name = "output_tokens" ->
  getattr e name 0 = default 0 (exc_dict e !! name).
Proof.
  intros Hm Hn. unfold getattr, lookup_attr.
  destruct (exc_dict e !! name); [reflexivity|].
  rewrite Hm. destruct Hn as [-> | ->]; reflexivity.
Qed.

Lemma cause_depth_OCRError message page_index step_index e :
  cause_depth (OCRError message page_index step_index (Some e))
  = S (cause_depth e).
Proof. reflexivity. Qed.

Lemma OCRError_not_its_cause message page_index step_index e :
  e <> OCRError message page_index step_index (Some e).
Proof.
  intros Heq. apply (f_equal cause_depth) in Heq.
  rewrite cause_depth_OCRError in Heq. lia.
Qed.

(* ===================================================================== *)
(** ** Properties of the interruption classifier *)
(* ===================================================================== *)

(** C2.  The classifier returns [None] for every exception that is neither
    a quota-exceeded signal nor an abort signal nor, when the optional
    library is installed, an instance of its base interruption type.  For
    every quota-exceeded signal that carries token counts [i] and [o] it
    returns an outcome of kind TOKEN_LIMIT_EXCEEDED whose metering is
    exactly [(i, o)]; so it does for [TokenLimitError(i, o)] itself, and in
    particular for the counts (100, 0). *)
Theorem to_interrupted_error_generic_and_quota
    (dpe : option DocPageExtractor) (e : PyExc) (i o : Z) :
  (isinstance e cls_TokenLimitError = false ->
   isinstance e cls_AbortError = false ->
   (forall lib, dpe = Some lib ->
                isinstance e (ExtractionAbortedError lib) = false) ->
   to_interrupted_error dpe e = Return None)
  /\ (isinstance e cls_TokenLimitError = true ->
      lookup_attr e "input_tokens" = Some i ->
      lookup_attr e "output_tokens" = Some o ->
      to_interrupted_error dpe e
      = Return (Some (mkInterrupted TOKEN_LIMIT_EXCEEDED (mkMetering i o))))
  /\ to_interrupted_error dpe (TokenLimitError i o)
     = Return (Some (mkInterrupted TOKEN_LIMIT_EXCEEDED (mkMetering i o)))
  /\ to_interrupted_error dpe (TokenLimitError 100 0)
     = Return (Some (mkInterrupted TOKEN_LIMIT_EXCEEDED (mkMetering 100 0))).
Proof.
  repeat split.
  - intros Hq Ha Hb. unfold to_interrupted_error. rewrite Hq, Ha.
    destruct dpe as [lib|]; [|reflexivity].
    now rewrite (Hb lib eq_refl).
  - intros Hq Hi Ho. unfold to_interrupted_error.
    now rewrite Hq, (get_attr_lookup _ _ _ Hi), (get_attr_lookup _ _ _ Ho).
Qed.

(** C9.  For an error that is neither of the two local signals: without the
    optional library the classifier returns [None]; with it, an instance of
    the library's base interruption type that is an instance of neither the
    abort subtype nor the token-limit subtype is also answered with [None],
    never with a kind. *)
Theorem to_interrupted_error_unrecognized (e : PyExc) :
  isinstance e cls_TokenLimitError = false ->
  isinstance e cls_AbortError = false ->
  to_interrupted_error None e = Return None
  /\ forall lib,
       isinstance e (ExtractionAbortedError lib) = true ->
       isinstance e (DPEAbortError lib) = false ->
       isinstance e (DPETokenLimitError lib) = false ->
       to_interrupted_error (Some lib) e = Return None.
Proof.
  intros Hq Ha. unfold to_interrupted_error. rewrite Hq, Ha.
  split; [reflexivity|].
  intros lib Hb Hx Ht. now rewrite Hb, Hx, Ht.
Qed.

(* ===================================================================== *)
(** ** Properties of the remote API backend *)
(* ===================================================================== *)

Section Backend.
Context `{Runtime}.

(** C1.  A call to [image2page] that returns, returns a page with exactly
    one body layout: its rectangle is [(0, 0, width, height)] of the
    input image, its role tag is "text", its reading-order index 0, it
    has no content hash; and the page has no footnote layout. *)
Theorem image2page_single_full_layout a w page w' :
  image2page a w = (Return page, w') ->
  (exists layout,
      page_body_layouts page = [layout]
      /\ layout_det layout
         = (0, 0, fst (image_size (arg_image a)), snd (image_size (arg_image a)))
      /\ layout_ref layout = py "text"
      /\ layout_order layout = 0
      /\ layout_hash layout = None)
  /\ page_footnotes_layouts page = [].
Proof.
  intros Hrun.
  apply image2page_Return_inv in Hrun
    as (client & kwargs & w2 & response & x3 & x4 & _ & _ & _ & -> & _).
  split; [|reflexivity].
  eexists. split; [reflexivity|]. repeat split.
Qed.

(** C3.  When the request is issued and the transport raises [err] (an
    [Exception]) in answer, [image2page] raises an [OCRError] whose
    [page_index] is the page index of the call, whose [step_index] is 1
    and whose cause is [err]. *)
Theorem image2page_request_failure a w client kwargs w2 err x3 :
  request_ready a w client kwargs w2 ->
  chat_completions_create client kwargs (ext w2) = (Raise err, x3) ->
  isinstance err cls_Exception = true ->
  exists e,
    fst (image2page a w) = Raise e
    /\ isinstance e cls_OCRError = true
    /\ get_attr e "page_index" = Return (arg_page_index a)
    /\ get_attr e "step_index" = Return 1
    /\ exc_cause e = Some err.
Proof.
  intros Hready Hcreate Hexc.
  rewrite (image2page_request_raises _ _ _ _ _ _ _ Hready Hcreate), Hexc.
  eexists. split; [reflexivity|]. repeat split.
Qed.

(** C4.  When the check at the first checkpoint raises [sig],
    [image2page] raises [sig] itself and leaves the instance and the
    trace as they were: no client is constructed and no request is
    issued.  If [sig] is an abort signal the classifier answers ABORT for
    it, with the counts attached to the signal, zero where none is
    attached. *)
Theorem image2page_abort_before_request a w sig x1 dpe :
  check_aborted (arg_aborted a) (ext w) = (Raise sig, x1) ->
  fst (image2page a w) = Raise sig
  /\ self (snd (image2page a w)) = self w
  /\ trace (snd (image2page a w)) = trace w
  /\ allocated (snd (image2page a w)) = allocated w
  /\ (isinstance sig cls_TokenLimitError = false ->
      isinstance sig cls_AbortError = true ->
      to_interrupted_error dpe sig
      = Return (Some (mkInterrupted ABORT
                        (mkMetering (getattr sig "input_tokens" 0)
                                    (getattr sig "output_tokens" 0)))))
  /\ (exc_mro sig = cls_AbortError :: exception_mro ->
      to_interrupted_error dpe sig
      = Return (Some (mkInterrupted ABORT
                        (mkMetering
                           (default 0 (exc_dict sig !! "input_tokens"))
                           (default 0 (exc_dict sig !! "output_tokens")))))).
Proof.
  intros Hcheck. rewrite (image2page_first_checkpoint _ _ _ _ Hcheck).
  repeat split.
  - apply to_interrupted_error_abort.
  - intros Hmro.
    rewrite <- !(getattr_AbortError sig) by auto.
    apply to_interrupted_error_abort;
      unfold isinstance; rewrite Hmro; reflexivity.
Qed.
(** C10.  When the request succeeds and the check at the post-response
    checkpoint raises [sig], [image2page] raises [sig] itself: it returns
    no page and does not raise an [OCRError] with [sig] as its cause,
    although the request was issued.  If [sig] is an abort signal the
    classifier answers ABORT for it. *)
Theorem image2page_abort_after_response
    a w client kwargs w2 response x3 sig x4 dpe :
  request_ready a w client kwargs w2 ->
  chat_completions_create client kwargs (ext w2) = (Return response, x3) ->
  check_aborted (arg_aborted a) x3 = (Raise sig, x4) ->
  fst (image2page a w) = Raise sig
  /\ (forall page, fst (image2page a w) <> Return page)
  /\ (forall message page_index step_index,
        fst (image2page a w)
        <> Raise (OCRError message page_index step_index (Some sig)))
  /\ trace (snd (image2page a w))
     = trace w2 ++ [request_issued client kwargs]
  /\ (isinstance sig cls_TokenLimitError = false ->
      isinstance sig cls_AbortError = true ->
      exists m, to_interrupted_error dpe sig
                = Return (Some (mkInterrupted ABORT m))).
Proof.
  intros Hready Hcreate Hcheck.
  rewrite (image2page_second_checkpoint _ _ _ _ _ _ _ _ _
             Hready Hcreate Hcheck).
  cbn [fst snd]. repeat split.
  - intros page. discriminate.
  - intros message page_index step_index [= Heq].
    exact (OCRError_not_its_cause _ _ _ _ Heq).
  - intros Hq Ha. eexists. now apply to_interrupted_error_abort.
Qed.

(** C5 (amended).  When the transport answers [response], both
    checkpoints pass and the first choice can be read (the response has
    its [choices] and the first choice, if there is one, a message with
    its [content], a string or [None]), [image2page] returns a page whose
    body layout has as text the content of the first choice with the
    surrogates removed and the surrounding whitespace trimmed.  A content
    "  Hello\n" gives "Hello"; no choice, a content [None], an empty
    content and a content of whitespace only give the empty string. *)
Theorem image2page_layout_text a w client kwargs w2 response x3 x4 :
  request_ready a w client kwargs w2 ->
  chat_completions_create client kwargs (ext w2) = (Return response, x3) ->
  check_aborted (arg_aborted a) x3 = (Return tt, x4) ->
  first_choice_readable response = true ->
  exists page layout,
    fst (image2page a w) = Return page
    /\ page_body_layouts page = [layout]
    /\ layout_text layout
       = strip (remove_surrogates (first_choice_content response))
    /\ (first_choice_content response = py "  Hello" ++ [10%N] ->
        layout_text layout = py "Hello")
    /\ (choices response = Present [] \/ choices response = IsNone ->
        layout_text layout = [])
    /\ (forall c rest message,
          choices response = Present (c :: rest) ->
          choice_message c = Present message ->
          message_content message = IsNone
          \/ message_content message = Present [] ->
          layout_text layout = [])
    /\ (forallb is_whitespace (first_choice_content response) = true ->
        layout_text layout = []).
Proof.
  intros Hready Hcreate Hcheck Hreadable.
  rewrite (image2page_returns _ _ _ _ _ _ _ _ Hready Hcreate Hcheck Hreadable).
  do 2 eexists. split; [reflexivity|]. split; [reflexivity|].
  cbn [layout_text].
  rewrite _normalize_text_Some, strip_remove_surrogates_strip.
  split; [reflexivity|]. unfold first_choice_content. repeat split.
  - now intros ->.
  - now intros [-> | ->].
  - now intros c rest message -> -> [-> | ->].
  - intros Hws. apply strip_whitespace.
    now apply remove_surrogates_whitespace.
Qed.

(** C6.  When the transport answers [response] and both checkpoints
    pass, a page that [image2page] returns has as [input_tokens] the
    [prompt_tokens] of the response's usage object and as [output_tokens]
    its [completion_tokens], each being 0 when the usage object or the
    count is absent or [None]: no usage gives (0, 0), a usage of 12 and 5
    gives (12, 5).  Usage never makes the call fail: the page is returned
    whenever the first choice can be read, and an error of the call at
    this point is the one raised by reading the first choice. *)
Theorem image2page_token_counts a w client kwargs w2 response x3 x4 :
  request_ready a w client kwargs w2 ->
  chat_completions_create client kwargs (ext w2) = (Return response, x3) ->
  check_aborted (arg_aborted a) x3 = (Return tt, x4) ->
  (forall page,
      fst (image2page a w) = Return page ->
      page_input_tokens page = usage_count response prompt_tokens
      /\ page_output_tokens page = usage_count response completion_tokens
      /\ (usage response = Absent \/ usage response = IsNone ->
          page_input_tokens page = 0 /\ page_output_tokens page = 0)
      /\ (usage response = Present (mkUsage (Present 12) (Present 5)) ->
          page_input_tokens page = 12 /\ page_output_tokens page = 5))
  /\ (first_choice_readable response = true ->
      exists page, fst (image2page a w) = Return page)
  /\ (forall e,
        fst (image2page a w) = Raise e ->
        image2page_content response = Raise e).
Proof.
  intros Hready Hcreate Hcheck.
  rewrite (image2page_answered _ _ _ _ _ _ _ _ Hready Hcreate Hcheck).
  cbn [fst]. split; [|split].
  - destruct (image2page_content response); [|discriminate].
    intros page [= <-].
    assert (Hcount : forall field,
      getattr_or (match getattr_none (usage response) with
                  | Some u => field u
                  | None => Absent
                  end) 0
      = usage_count response field).
    { intros field. unfold usage_count.
      destruct (usage response) as [| |u]; try reflexivity.
      cbn [getattr_none]. destruct (field u) as [| |n]; try reflexivity.
      unfold getattr_or. destruct (Z.eqb_spec n 0); congruence. }
    cbn [page_input_tokens page_output_tokens response_page].
    rewrite !Hcount. unfold usage_count.
    split; [reflexivity|]. split; [reflexivity|]. split.
    + intros [-> | ->]; split; reflexivity.
    + intros ->. split; reflexivity.
  - intros Hreadable. rewrite (image2page_content_readable _ Hreadable).
    eauto.
  - destruct (image2page_content response); [discriminate|].
    now intros e' [= ->].
Qed.

(** C7.  Any sequence of calls to [download_models] and [load_models],
    in any order and of any length, returns without raising and leaves
    the whole world as it was: the instance, the outside state and the
    trace, so no client is constructed and no request issued.  Running a
    sequence twice is the same as running it once. *)
Theorem lifecycle_hooks_are_noops (hooks : list LifecycleCall) (w : World) :
  run_hooks hooks w = (Return tt, w)
  /\ run_hooks (hooks ++ hooks) w = run_hooks hooks w.
Proof.
  assert (Hrun : forall hs, run_hooks hs w = (Return tt, w)).
  { induction hs as [|h hs IH]; [reflexivity|].
    cbn [run_hooks]. unfold bind. destruct h; cbn; exact IH. }
  now rewrite !Hrun.
Qed.

(** C8.  A new instance has no client.  [_get_client] on an instance
    without client constructs one, stores it and returns it; on an
    instance with a client it returns that client and changes nothing.
    Once the instance holds a client, it holds the same client after any
    sequence of operations; and a world in which the instance's client is
    the only one ever constructed stays so. *)
Theorem client_constructed_once_and_reused :
  (forall api_key base_url model,
      _client (APIPageExtractor__init__ api_key base_url model) = None)
  /\ (forall w x,
        _client (self w) = None ->
        OpenAI_init (_api_key (self w)) (_base_url (self w)) (ext w)
        = (Return tt, x) ->
        exists c,
          fst (_get_client w) = Return c
          /\ _client (self (snd (_get_client w))) = Some c
          /\ trace (snd (_get_client w)) = trace w ++ [client_constructed c])
  /\ (forall w c,
        _client (self w) = Some c -> _get_client w = (Return c, w))
  /\ (forall calls w c,
        _client (self w) = Some c ->
        _client (self (after_calls calls w)) = Some c)
  /\ (forall calls w,
        single_client w -> single_client (after_calls calls w)).
Proof.
  split; [reflexivity|]. split; [|split; [|split]].
  - intros w x Hnone Hinit.
    rewrite (_get_client_first w x Hnone Hinit). eexists.
    repeat split.
  - exact _get_client_cached.
  - intros calls w c. apply after_calls_keeps_client.
  - intros calls w. apply after_calls_single_client.
Qed.
End Backend.

(* ===================================================================== *)
(** ** The edges of the request phase *)
(* ===================================================================== *)

Section RequestPhase.
Context `{Runtime}.

(** The client is obtained inside the [try]: when its constructor raises
  an [Exception], that one too is reported as a failure of step 1. *)
Lemma image2page_client_failure a w x1 buf err x2 :
check_aborted (arg_aborted a) (ext w) = (Return tt, x1) ->
Image_save_png (arg_image a) = Return buf ->
_client (self w) = None ->
OpenAI_init (_api_key (self w)) (_base_url (self w)) x1 = (Raise err, x2) ->
isinstance err cls_Exception = true ->
exists message,
  image2page a w
  = (Raise (OCRError message (arg_page_index a) 1 (Some err)),
     mkWorld (self w) x2 (allocated w) (trace w)).
Proof.
intros H1 H2 Hnone Hinit Hexc.
enter_image2page. rewrite H1. step_world. rewrite H2.
rewrite (_get_client_raises (mkWorld (self w) x1 (allocated w) (trace w))
           err x2 Hnone Hinit), Hexc.
eexists. reflexivity.
Qed.

(** [except Exception] lets through what is not an [Exception] (a
  [KeyboardInterrupt] during the request, say): it leaves [image2page]
  as it is. *)
Lemma image2page_request_interrupted a w client kwargs w2 err x3 :
request_ready a w client kwargs w2 ->
chat_completions_create client kwargs (ext w2) = (Raise err, x3) ->
isinstance err cls_Exception = false ->
image2page a w = (Raise err, after_request w2 client kwargs x3).
Proof.
intros Hready Hcreate Hexc.
now rewrite (image2page_request_raises _ _ _ _ _ _ _ Hready Hcreate), Hexc.
Qed.

(** Encoding the image happens before the [try]: its failure leaves
  [image2page] unwrapped, and nothing is requested. *)
Lemma image2page_encoding_failure a w x1 err :
check_aborted (arg_aborted a) (ext w) = (Return tt, x1) ->
Image_save_png (arg_image a) = Raise err ->
image2page a w = (Raise err, mkWorld (self w) x1 (allocated w) (trace w)).
Proof.
intros H1 H2. enter_image2page. rewrite H1. step_world. now rewrite H2.
Qed.
End RequestPhase.

Example image2page_contentless :
  fst (@image2page (double (Return contentless_reply))
         (double_args (Return contentless_reply) never)
         (double_world (Return contentless_reply)))
  = Raise (AttributeError
             (py "'ChatCompletionMessage' object has no attribute 'content'")).
Proof. reflexivity. Qed.

Example class_name_examples :
  class_name (cls_other "doc_page_extractor.AbortError" []) = "AbortError"
  /\ class_name (cls_other "BareLimit" []) = "BareLimit"
  /\ type_name (TokenLimitError 1 2) = "TokenLimitError".
Proof. repeat split. Qed.

Example classify_abort_with_counts :
  to_interrupted_error None abort_with_counts
  = Return (Some (mkInterrupted ABORT (mkMetering 40 2))).
Proof. reflexivity. Qed.

Example classify_dpe_abort :
  to_interrupted_error (Some dpe_library)
    (mkExc (DPEAbortError dpe_library :: ExtractionAbortedError dpe_library
            :: exception_mro) [] (<["output_tokens" := 9]> {["input_tokens" := 3]}) None)
  = Return (Some (mkInterrupted ABORT (mkMetering 3 9))).
Proof. reflexivity. Qed.

(* ===================================================================== *)
(** ** The properties at concrete inputs *)
(* ===================================================================== *)

Lemma double_request_ready (reply : result ChatCompletion) :
  @request_ready (double reply) (double_args reply never) (double_world reply)
    double_client double_kwargs (double_ready reply).
Proof. exists 1%nat, [Byte.x4d; Byte.x61; Byte.x6e]. repeat split. Qed.

Lemma to_interrupted_error_generic_and_quota_witness :
  (isinstance boom cls_TokenLimitError = false
   /\ isinstance boom cls_AbortError = false
   /\ to_interrupted_error (Some dpe_library) boom = Return None)
  /\ (isinstance (TokenLimitError 100 0) cls_TokenLimitError = true
      /\ lookup_attr (TokenLimitError 100 0) "input_tokens" = Some 100
      /\ lookup_attr (TokenLimitError 100 0) "output_tokens" = Some 0
      /\ to_interrupted_error None (TokenLimitError 100 0)
         = Return (Some (mkInterrupted TOKEN_LIMIT_EXCEEDED (mkMetering 100 0)))).
Proof.
  split.
  - split; [reflexivity|]. split; [reflexivity|].
    apply (to_interrupted_error_generic_and_quota (Some dpe_library) boom 0 0).
    + reflexivity.
    + reflexivity.
    + intros lib [= <-]. reflexivity.
  - split; [reflexivity|]. split; [reflexivity|]. split; [reflexivity|].
    apply (to_interrupted_error_generic_and_quota None (TokenLimitError 100 0) 100 0);
      reflexivity.
Defined.

Lemma to_interrupted_error_unrecognized_witness :
  isinstance dpe_other_interruption cls_TokenLimitError = false
  /\ isinstance dpe_other_interruption cls_AbortError = false
  /\ isinstance dpe_other_interruption (ExtractionAbortedError dpe_library) = true
  /\ isinstance dpe_other_interruption (DPEAbortError dpe_library) = false
  /\ isinstance dpe_other_interruption (DPETokenLimitError dpe_library) = false
  /\ to_interrupted_error None dpe_other_interruption = Return None
  /\ to_interrupted_error (Some dpe_library) dpe_other_interruption = Return None.
Proof.
  do 5 (split; [reflexivity|]).
  destruct (to_interrupted_error_unrecognized dpe_other_interruption
              eq_refl eq_refl) as [Hnone Hlib].
  split; [exact Hnone|].
  apply Hlib; reflexivity.
Defined.

Lemma image2page_single_full_layout_witness :
  let R := double (Return hello_reply) in
  let a := double_args (Return hello_reply) never in
  let w := double_world (Return hello_reply) in
  let page := mkPage 7 None
                [mkPageLayout (py "text") (0, 0, 640, 480) (py "Hello") 0 None]
                [] 12 5 in
  @image2page R a w = (Return page, after_request (double_ready _) double_client double_kwargs 2%nat)
  /\ (exists layout,
         page_body_layouts page = [layout]
         /\ layout_det layout = (0, 0, 640, 480)
         /\ layout_ref layout = py "text"
         /\ layout_order layout = 0
         /\ layout_hash layout = None)
  /\ page_footnotes_layouts page = [].
Proof.
  intros R a w page.
  assert (Hrun : @image2page R a w
                 = (Return page,
                    after_request (double_ready _) double_client double_kwargs 2%nat))
    by (vm_compute; reflexivity).
  split; [exact Hrun|].
  exact (@image2page_single_full_layout R a w page _ Hrun).
Defined.

Lemma image2page_request_failure_witness :
  let R := double (Raise boom) in
  let a := double_args (Raise boom) never in
  let w := double_world (Raise boom) in
  @request_ready R a w double_client double_kwargs (double_ready _)
  /\ isinstance boom cls_Exception = true
  /\ exists e,
       fst (@image2page R a w) = Raise e
       /\ isinstance e cls_OCRError = true
       /\ get_attr e "page_index" = Return 7
       /\ get_attr e "step_index" = Return 1
       /\ exc_cause e = Some boom.
Proof.
  intros R a w.
  split; [apply double_request_ready|]. split; [reflexivity|].
  apply (@image2page_request_failure R a w double_client double_kwargs
           (double_ready _) boom 1%nat).
  - apply double_request_ready.
  - reflexivity.
  - reflexivity.
Defined.

Lemma image2page_abort_before_request_witness :
  let R := double (Return hello_reply) in
  let a := double_args (Return hello_reply) always in
  let w := double_world (Return hello_reply) in
  @check_aborted R (arg_aborted a) (ext w) = (Raise AbortError, 1%nat)
  /\ fst (@image2page R a w) = Raise AbortError
  /\ self (snd (@image2page R a w)) = self w
  /\ trace (snd (@image2page R a w)) = []
  /\ to_interrupted_error (Some dpe_library) AbortError
     = Return (Some (mkInterrupted ABORT (mkMetering 0 0))).
Proof.
  intros R a w.
  destruct (@image2page_abort_before_request R a w AbortError 1%nat
              (Some dpe_library) eq_refl)
    as (Hraise & Hself & Htrace & _ & _ & Hkind).
  split; [reflexivity|]. split; [exact Hraise|]. split; [exact Hself|].
  split; [exact Htrace|].
  exact (Hkind eq_refl).
Defined.

Lemma image2page_abort_after_response_witness :
  let R := double (Return hello_reply) in
  let a := double_args (Return hello_reply) on_second_call in
  let w := double_world (Return hello_reply) in
  @check_aborted R (arg_aborted a) (ext w) = (Return tt, 1%nat)
  /\ @chat_completions_create R double_client double_kwargs 1%nat
     = (Return hello_reply, 1%nat)
  /\ @check_aborted R (arg_aborted a) 1%nat = (Raise AbortError, 2%nat)
  /\ fst (@image2page R a w) = Raise AbortError
  /\ trace (snd (@image2page R a w))
     = [client_constructed double_client;
        request_issued double_client double_kwargs]
  /\ exists m, to_interrupted_error None AbortError
               = Return (Some (mkInterrupted ABORT m)).
Proof.
  intros R a w.
  assert (Hready : @request_ready R a w double_client double_kwargs
                     (double_ready _)).
  { exists 1%nat, [Byte.x4d; Byte.x61; Byte.x6e]. repeat split. }
  destruct (@image2page_abort_after_response R a w double_client double_kwargs
              (double_ready _) hello_reply 1%nat AbortError 2%nat None
              Hready eq_refl eq_refl)
    as (Hraise & _ & _ & Htrace & Hkind).
  do 3 (split; [reflexivity|]).
  split; [exact Hraise|]. split; [exact Htrace|].
  exact (Hkind eq_refl eq_refl).
Defined.

Lemma image2page_layout_text_witness :
  let R := double (Return hello_reply) in
  let a := double_args (Return hello_reply) never in
  let w := double_world (Return hello_reply) in
  @request_ready R a w double_client double_kwargs (double_ready _)
  /\ @check_aborted R (arg_aborted a) 1%nat = (Return tt, 2%nat)
  /\ first_choice_readable hello_reply = true
  /\ first_choice_content hello_reply = py "  Hello" ++ [10%N]
  /\ exists page layout,
       fst (@image2page R a w) = Return page
       /\ page_body_layouts page = [layout]
       /\ layout_text layout = py "Hello".
Proof.
  intros R a w.
  destruct (@image2page_layout_text R a w double_client double_kwargs
              (double_ready _) hello_reply 1%nat 2%nat
              (double_request_ready _) eq_refl eq_refl eq_refl)
    as (page & layout & Hrun & Hbody & _ & Hhello & _).
  split; [apply double_request_ready|]. do 3 (split; [reflexivity|]).
  exists page, layout. split; [exact Hrun|]. split; [exact Hbody|].
  exact (Hhello eq_refl).
Defined.

(** C5, as stated, fails: when the first choice of the response has no
    message, the call passes both checkpoints and then raises the
    [AttributeError] of the attribute read; it returns no page, and so no
    layout with the empty string as text. *)
Lemma image2page_layout_text_counterexample :
  @request_ready (double (Return messageless_reply))
     (double_args (Return messageless_reply) never)
     (double_world (Return messageless_reply))
     double_client double_kwargs (double_ready (Return messageless_reply))
  /\ @chat_completions_create (double (Return messageless_reply))
       double_client double_kwargs 1%nat
     = (Return messageless_reply, 1%nat)
  /\ @check_aborted (double (Return messageless_reply)) never 1%nat
     = (Return tt, 2%nat)
  /\ fst (@image2page (double (Return messageless_reply))
            (double_args (Return messageless_reply) never)
            (double_world (Return messageless_reply)))
     = Raise (AttributeError (py "'Choice' object has no attribute 'message'"))
  /\ ~ (exists page layout,
          fst (@image2page (double (Return messageless_reply))
                 (double_args (Return messageless_reply) never)
                 (double_world (Return messageless_reply)))
          = Return page
          /\ page_body_layouts page = [layout]
          /\ layout_text layout = []).
Proof.
  split; [apply double_request_ready|].
  do 3 (split; [reflexivity|]).
  intros (page & layout & Hrun & _). discriminate Hrun.
Qed.

Lemma image2page_token_counts_witness :
  let R := double (Return hello_reply) in
  let a := double_args (Return hello_reply) never in
  let w := double_world (Return hello_reply) in
  @request_ready R a w double_client double_kwargs (double_ready _)
  /\ usage hello_reply = Present (mkUsage (Present 12) (Present 5))
  /\ exists page,
       fst (@image2page R a w) = Return page
       /\ page_input_tokens page = 12
       /\ page_output_tokens page = 5.
Proof.
  intros R a w.
  destruct (@image2page_token_counts R a w double_client double_kwargs
              (double_ready _) hello_reply 1%nat 2%nat
              (double_request_ready _) eq_refl eq_refl)
    as (Hpage & Hreturns & _).
  split; [apply double_request_ready|]. split; [reflexivity|].
  destruct (Hreturns eq_refl) as (page & Hrun).
  destruct (Hpage page Hrun) as (_ & _ & _ & Hcounts).
  exists page. split; [exact Hrun|]. exact (Hcounts eq_refl).
Defined.

Lemma client_constructed_once_and_reused_witness :
  let R := double (Return hello_reply) in
  let w := double_world (Return hello_reply) in
  let calls :=
    [call_load_models; call_image2page (double_args _ never);
     call_download_models None; call_image2page (double_args _ always);
     call__get_client] in
  _client (self w) = None
  /\ @single_client R w
  /\ (exists c, fst (@_get_client R w) = Return c
                 /\ trace (snd (@_get_client R w)) = [client_constructed c])
  /\ _client (self (double_ready (Return hello_reply))) = Some double_client
  /\ _client (self (@after_calls R calls (double_ready _))) = Some double_client
  /\ @single_client R (@after_calls R calls w).
Proof.
  intros R w calls.
  destruct (@client_constructed_once_and_reused R)
    as (_ & Hfirst & _ & Hkeep & Hsingle).
  split; [reflexivity|]. split; [reflexivity|].
  split.
  - destruct (Hfirst w 0%nat eq_refl eq_refl) as (c & Hc & _ & Ht).
    exists c. split; [exact Hc | exact Ht].
  - split; [reflexivity|]. split.
    + exact (Hkeep calls (double_ready _) double_client eq_refl).
    + exact (Hsingle calls w eq_refl).
Defined.

(* ===================================================================== *)
(** ** More on the classifier *)
(* ===================================================================== *)

(** X1.  The two local signals are recognized before the optional library
    is looked at: for an instance of [TokenLimitError] or of [AbortError]
    the answer is the same whether the library is installed or not, and
    whatever its classes are. *)
Theorem to_interrupted_error_local_first
    (dpe1 dpe2 : option DocPageExtractor) (e : PyExc) :
  isinstance e cls_TokenLimitError = true
  \/ isinstance e cls_AbortError = true ->
  to_interrupted_error dpe1 e = to_interrupted_error dpe2 e.
Proof.
  unfold to_interrupted_error. intros [Hq | Ha].
  - now rewrite Hq.
  - rewrite Ha. now destruct (isinstance e cls_TokenLimitError).
Qed.

Lemma to_interrupted_error_local_first_witness :
  isinstance abort_with_counts cls_AbortError = true
  /\ to_interrupted_error None abort_with_counts
     = to_interrupted_error (Some dpe_library) abort_with_counts.
Proof.
  split; [reflexivity|].
  apply (to_interrupted_error_local_first None (Some dpe_library)
           abort_with_counts).
  right. reflexivity.
Defined.

(** X2.  Whenever the classifier answers with an outcome, the metering of
    the outcome is what the error's [input_tokens] and [output_tokens]
    resolve to, in every branch: counts are carried over, never invented. *)
Theorem to_interrupted_error_metering dpe e outcome :
  to_interrupted_error dpe e = Return (Some outcome) ->
  metering outcome
  = mkMetering (getattr e "input_tokens" 0) (getattr e "output_tokens" 0).
Proof.
  unfold to_interrupted_error, get_attr, getattr.
  destruct (isinstance e cls_TokenLimitError).
  - destruct (lookup_attr e "input_tokens") as [i|]; [|discriminate].
    destruct (lookup_attr e "output_tokens") as [o|]; [|discriminate].
    now intros [= <-].
  - destruct (isinstance e cls_AbortError).
    + now intros [= <-].
    + destruct dpe as [lib|]; [|discriminate].
      destruct (isinstance e (ExtractionAbortedError lib)); [|discriminate].
      destruct (isinstance e (DPEAbortError lib));
        [|destruct (isinstance e (DPETokenLimitError lib)); [|discriminate]];
        (destruct (lookup_attr e "input_tokens") as [i|]; [|discriminate];
         destruct (lookup_attr e "output_tokens") as [o|]; [|discriminate];
         now intros [= <-]).
Qed.

Lemma to_interrupted_error_metering_witness :
  to_interrupted_error (Some dpe_library) dpe_token_limit
  = Return (Some (mkInterrupted TOKEN_LIMIT_EXCEEDED (mkMetering 70 8)))
  /\ mkMetering 70 8
     = mkMetering (getattr dpe_token_limit "input_tokens" 0)
                  (getattr dpe_token_limit "output_tokens" 0).
Proof.
  split; [reflexivity|].
  exact (to_interrupted_error_metering (Some dpe_library) dpe_token_limit
           (mkInterrupted TOKEN_LIMIT_EXCEEDED (mkMetering 70 8)) eq_refl).
Defined.

(** X3.  What an outcome's kind says about the error.  ABORT is answered
    only for an error that is not a local quota signal and is a local abort
    signal or, with the library installed, an instance of both its base
    type and its abort subtype.  TOKEN_LIMIT_EXCEEDED is answered only for
    a local quota signal or, the error being no local abort signal, for an
    instance of the library's base type and token-limit subtype that is not
    of its abort subtype. *)
Theorem to_interrupted_error_kind dpe e outcome :
  to_interrupted_error dpe e = Return (Some outcome) ->
  match kind outcome with
  | ABORT =>
      isinstance e cls_TokenLimitError = false
      /\ (isinstance e cls_AbortError = true
          \/ exists lib, dpe = Some lib
               /\ isinstance e (ExtractionAbortedError lib) = true
               /\ isinstance e (DPEAbortError lib) = true)
  | TOKEN_LIMIT_EXCEEDED =>
      isinstance e cls_TokenLimitError = true
      \/ (isinstance e cls_AbortError = false
          /\ exists lib, dpe = Some lib
               /\ isinstance e (ExtractionAbortedError lib) = true
               /\ isinstance e (DPEAbortError lib) = false
               /\ isinstance e (DPETokenLimitError lib) = true)
  end.
Proof.
  unfold to_interrupted_error, get_attr.
  destruct (isinstance e cls_TokenLimitError) eqn:Hq.
  - destruct (lookup_attr e "input_tokens"); [|discriminate].
    destruct (lookup_attr e "output_tokens"); [|discriminate].
    intros [= <-]. left. reflexivity.
  - destruct (isinstance e cls_AbortError) eqn:Ha.
    + intros [= <-]. split; [reflexivity|]. left. reflexivity.
    + destruct dpe as [lib|]; [|discriminate].
      destruct (isinstance e (ExtractionAbortedError lib)) eqn:Hb;
        [|discriminate].
      destruct (isinstance e (DPEAbortError lib)) eqn:Hx.
      * destruct (lookup_attr e "input_tokens"); [|discriminate].
        destruct (lookup_attr e "output_tokens"); [|discriminate].
        intros [= <-]. split; [reflexivity|]. right. exists lib. auto.
      * destruct (isinstance e (DPETokenLimitError lib)) eqn:Ht;
          [|discriminate].
        destruct (lookup_attr e "input_tokens"); [|discriminate].
        destruct (lookup_attr e "output_tokens"); [|discriminate].
        intros [= <-]. right. split; [reflexivity|]. exists lib. auto.
Qed.

Lemma to_interrupted_error_kind_witness :
  to_interrupted_error (Some dpe_library) quota_and_abort
  = Return (Some (mkInterrupted TOKEN_LIMIT_EXCEEDED (mkMetering 5 6)))
  /\ isinstance quota_and_abort cls_AbortError = true
  /\ (isinstance quota_and_abort cls_TokenLimitError = true
      \/ (isinstance quota_and_abort cls_AbortError = false
          /\ exists lib, Some dpe_library = Some lib
               /\ isinstance quota_and_abort (ExtractionAbortedError lib) = true
               /\ isinstance quota_and_abort (DPEAbortError lib) = false
               /\ isinstance quota_and_abort (DPETokenLimitError lib) = true)).
Proof.
  split; [reflexivity|]. split; [reflexivity|].
  exact (to_interrupted_error_kind (Some dpe_library) quota_and_abort
           (mkInterrupted TOKEN_LIMIT_EXCEEDED (mkMetering 5 6)) eq_refl).
Defined.

(** X4.  With the library installed, an error that is no local signal and
    is an instance of the library's base type is classified by subtype, the
    abort subtype being tested first: ABORT for an instance of the abort
    subtype, TOKEN_LIMIT_EXCEEDED for an instance of the token-limit
    subtype only, each with the counts the error carries.  An instance of a
    subtype that is not an instance of the base type gets [None]. *)
Theorem to_interrupted_error_library lib e i o :
  isinstance e cls_TokenLimitError = false ->
  isinstance e cls_AbortError = false ->
  lookup_attr e "input_tokens" = Some i ->
  lookup_attr e "output_tokens" = Some o ->
  (isinstance e (ExtractionAbortedError lib) = true ->
   isinstance e (DPEAbortError lib) = true ->
   to_interrupted_error (Some lib) e
   = Return (Some (mkInterrupted ABORT (mkMetering i o))))
  /\ (isinstance e (ExtractionAbortedError lib) = true ->
      isinstance e (DPEAbortError lib) = false ->
      isinstance e (DPETokenLimitError lib) = true ->
      to_interrupted_error (Some lib) e
      = Return (Some (mkInterrupted TOKEN_LIMIT_EXCEEDED (mkMetering i o))))
  /\ (isinstance e (ExtractionAbortedError lib) = false ->
      to_interrupted_error (Some lib) e = Return None).
Proof.
  intros Hq Ha Hi Ho. unfold to_interrupted_error. rewrite Hq, Ha.
  rewrite (get_attr_lookup _ _ _ Hi), (get_attr_lookup _ _ _ Ho).
  split; [|split].
  - now intros -> ->.
  - now intros -> -> ->.
  - now intros ->.
Qed.

Lemma to_interrupted_error_library_witness :
  to_interrupted_error (Some dpe_library) dpe_abort
  = Return (Some (mkInterrupted ABORT (mkMetering 3 9)))
  /\ to_interrupted_error (Some dpe_library) dpe_token_limit
     = Return (Some (mkInterrupted TOKEN_LIMIT_EXCEEDED (mkMetering 70 8)))
  /\ to_interrupted_error (Some dpe_library) dpe_detached_abort = Return None.
Proof.
  split; [|split].
  - apply (to_interrupted_error_library dpe_library dpe_abort 3 9);
      reflexivity.
  - apply (to_interrupted_error_library dpe_library dpe_token_limit 70 8);
      reflexivity.
  - apply (to_interrupted_error_library dpe_library dpe_detached_abort 3 9);
      reflexivity.
Defined.



(* ===================================================================== *)
(** ** More on how calls run *)
(* ===================================================================== *)

Section Effects.
Context `{Runtime}.

Lemma requests_app (t u : list Event) :
  requests (t ++ u) = (requests t + requests u)%nat.
Proof.
  induction t as [|[c|c k] t IH]; simpl; [reflexivity|assumption|].
  now rewrite IH.
Qed.

(** The three ways [_get_client] can go. *)
Lemma _get_client_effect (v : World) :
  (exists c, _client (self v) = Some c /\ _get_client v = (Return c, v))
  \/ (_client (self v) = None
      /\ exists x,
           let c := mkOpenAI (allocated v) (_api_key (self v))
                             (_base_url (self v)) in
           _get_client v
           = (Return c,
              mkWorld (mkExtractor (_api_key (self v)) (_base_url (self v))
                                   (_model (self v)) (Some c))
                      x (S (allocated v)) (trace v ++ [client_constructed c])))
  \/ (_client (self v) = None
      /\ exists e x,
           _get_client v
           = (Raise e, mkWorld (self v) x (allocated v) (trace v))).
Proof.
  destruct (_client (self v)) as [c|] eqn:Hc.
  - left. exists c. split; [reflexivity|]. now apply _get_client_cached.
  - destruct (OpenAI_init (_api_key (self v)) (_base_url (self v)) (ext v))
      as [[[]|e] x] eqn:Hx.
    + right. left. split; [reflexivity|]. exists x.
      now apply _get_client_first.
    + right. right. split; [reflexivity|]. exists e, x.
      now apply _get_client_raises.
Qed.

(** What [_get_client] returns is what the instance holds afterwards. *)
Lemma _get_client_Return (v g : World) c :
  _get_client v = (Return c, g) ->
  _client (self g) = Some c
  /\ _api_key (self g) = _api_key (self v)
  /\ _base_url (self g) = _base_url (self v)
  /\ _model (self g) = _model (self v)
  /\ ((self g = self v /\ trace g = trace v)
      \/ (_client (self v) = None
          /\ client_api_key c = _api_key (self v)
          /\ client_base_url c = _base_url (self v)
          /\ trace g = trace v ++ [client_constructed c])).
Proof.
  destruct (_get_client_effect v)
    as [(c' & Hc & ->) | [(Hnone & x & ->) | (Hnone & e & x & ->)]].
  - intros [= <- <-]. repeat split; auto.
  - cbn zeta. intros [= <- <-]. step_world. repeat split. right.
    repeat split. exact Hnone.
  - discriminate.
Qed.

(** A call to [image2page] either fails before the request phase and
    leaves instance and trace alone, or fails to get a client, or reaches
    the transport, and then the request is the last event of the trace. *)
Lemma image2page_effect a w :
  let w' := snd (image2page a w) in
  (self w' = self w /\ trace w' = trace w
   /\ exists e, fst (image2page a w) = Raise e)
  \/ exists client kwargs w2,
       request_ready a w client kwargs w2
       /\ self w' = self w2
       /\ trace w' = trace w2 ++ [request_issued client kwargs].
Proof.
  cbn zeta.
  destruct (check_aborted (arg_aborted a) (ext w)) as [[[]|e1] x1] eqn:H1.
  2:{ left. rewrite (image2page_first_checkpoint _ _ _ _ H1). eauto. }
  destruct (Image_save_png (arg_image a)) as [buf|e2] eqn:H2.
  2:{ left. enter_image2page. rewrite H1. step_world. rewrite H2. eauto. }
  destruct (_get_client (mkWorld (self w) x1 (allocated w) (trace w)))
    as [[client|e3] w2] eqn:H3.
  - right. exists client. eexists. exists w2.
    assert (Hready : request_ready a w client
              (image2page_kwargs (_model (self w2))
                 (image2page_messages
                    (py "data:image/png;base64," ++ b64encode buf))
                 (arg_max_output_tokens a)) w2)
      by (exists x1, buf; auto).
    split; [exact Hready|].
    destruct (chat_completions_create client
                (image2page_kwargs (_model (self w2))
                   (image2page_messages
                      (py "data:image/png;base64," ++ b64encode buf))
                   (arg_max_output_tokens a)) (ext w2))
      as [[response|e4] x3] eqn:H4.
    + destruct (check_aborted (arg_aborted a) x3) as [[[]|e5] x4] eqn:H5.
      * rewrite (image2page_answered _ _ _ _ _ _ _ _ Hready H4 H5). auto.
      * rewrite (image2page_second_checkpoint _ _ _ _ _ _ _ _ _ Hready H4 H5).
        auto.
    + rewrite (image2page_request_raises _ _ _ _ _ _ _ Hready H4). auto.
  - left. enter_image2page. rewrite H1. step_world. rewrite H2, H3.
    destruct (_get_client_effect (mkWorld (self w) x1 (allocated w) (trace w)))
      as [(c' & _ & Heq) | [(_ & x & Heq) | (_ & e & x & Heq)]];
      rewrite H3 in Heq; try discriminate.
    injection Heq as -> ->.
    destruct (isinstance e cls_Exception); step_world; eauto.
Qed.
End Effects.

(* ===================================================================== *)
(** ** More on image2page *)
(* ===================================================================== *)

Section MoreBackend.
Context `{Runtime}.

Lemma image2page_kwargs_eq model messages max_output_tokens :
  image2page_kwargs model messages max_output_tokens
  = mkKwargs model messages max_output_tokens.
Proof. now destruct max_output_tokens. Qed.

(** X6.  A quota or abort signal raised inside the request phase does not
    stay one.  Whatever [Exception] the transport raises, [image2page]
    raises an inline error for which the classifier answers [None], with or
    without the optional library (whose base type is not one of the classes
    of [OCRError]). *)
Theorem image2page_masks_signals a w client kwargs w2 err x3 dpe :
  request_ready a w client kwargs w2 ->
  chat_completions_create client kwargs (ext w2) = (Raise err, x3) ->
  isinstance err cls_Exception = true ->
  (forall lib, dpe = Some lib ->
     ~ (ExtractionAbortedError lib ∈ cls_OCRError :: exception_mro)) ->
  exists e,
    fst (image2page a w) = Raise e
    /\ is_inline_error e = true
    /\ to_interrupted_error dpe e = Return None.
Proof.
  intros Hready Hcreate Hexc Hbase.
  rewrite (image2page_request_raises _ _ _ _ _ _ _ Hready Hcreate), Hexc.
  eexists. split; [reflexivity|]. split; [reflexivity|].
  unfold to_interrupted_error.
  replace (isinstance (OCRError _ _ _ _) cls_TokenLimitError) with false
    by reflexivity.
  replace (isinstance (OCRError _ _ _ _) cls_AbortError) with false
    by reflexivity.
  destruct dpe as [lib|]; [|reflexivity].
  replace (isinstance (OCRError _ _ _ _) (ExtractionAbortedError lib))
    with false; [reflexivity|].
  symmetry. apply bool_decide_eq_false. exact (Hbase lib eq_refl).
Qed.

(** X7.  [image2page] reads five of its eleven arguments: the image, the
    page index, [includes_raw_image], [max_output_tokens] and the abort
    probe.  Calls that agree on these do the same, whatever the asset hub,
    the OCR size, [includes_footnotes], the plot path, [max_tokens] and the
    device number are. *)
Theorem image2page_reads_five_arguments a b w :
  same_read_arguments a b -> image2page a w = image2page b w.
Proof.
  destruct a, b. unfold same_read_arguments. cbn.
  intros (-> & -> & -> & -> & ->). reflexivity.
Qed.

(** X8.  One call to [image2page] only adds to the trace, issues at most
    one request and constructs at most one client; a call that returns a
    page has issued exactly one request. *)
Theorem image2page_one_request a w :
  let w' := snd (image2page a w) in
  (exists events, trace w' = trace w ++ events)
  /\ (requests (trace w') <= S (requests (trace w)))%nat
  /\ (constructions (trace w') <= S (constructions (trace w)))%nat
  /\ (forall page, fst (image2page a w) = Return page ->
                   requests (trace w') = S (requests (trace w))).
Proof.
  cbn zeta.
  destruct (image2page_effect a w)
    as [(_ & Ht & e & He) | (client & kwargs & w2 & Hready & _ & Ht)];
    cbn zeta in *; rewrite Ht.
  - split; [exists []; now rewrite app_nil_r|].
    split; [lia|]. split; [lia|].
    intros page Hp. rewrite He in Hp. discriminate.
  - destruct Hready as (x1 & buf & _ & _ & Hget & _).
    apply _get_client_Return in Hget
      as (_ & _ & _ & _ & [[_ Hg] | (_ & _ & _ & Hg)]);
      step_world; cbn [trace] in Hg; rewrite Hg.
    + split; [eexists; reflexivity|].
      rewrite requests_app, constructions_app. cbn. repeat split; lia.
    + split; [eexists; rewrite <- app_assoc; reflexivity|].
      rewrite !requests_app, !constructions_app. cbn. repeat split; lia.
Qed.

(** X9.  The request of a call that returns a page is the last event of
    the trace.  It is issued on the client the instance holds, for the
    instance's model, with one user message made of the image as a PNG data
    URL with detail "high" and of the fixed instruction, and with
    [max_tokens] set to [max_output_tokens] exactly when that is given. *)
Theorem image2page_request_shape a w page w' :
  image2page a w = (Return page, w') ->
  exists client buf,
    Image_save_png (arg_image a) = Return buf
    /\ _client (self w') = Some client
    /\ last (trace w')
       = Some (request_issued client
                 (mkKwargs (_model (self w))
                    [ mkMessageParam (py "user")
                        [ image_url_part
                            (py "data:image/png;base64," ++ b64encode buf)
                            (py "high");
                          text_part
                            (py "<image>" ++ [10%N]
                             ++ py "Convert the document to markdown.") ] ]
                    (arg_max_output_tokens a))).
Proof.
  intros Hrun.
  apply image2page_Return_inv in Hrun
    as (client & kwargs & w2 & response & x3 & x4 & Hready & _ & _ & _ & -> & _).
  destruct Hready as (x1 & buf & _ & Hsave & Hget & ->).
  apply _get_client_Return in Hget as (Hc & _ & _ & Hmodel & _).
  exists client, buf. split; [exact Hsave|]. split; [exact Hc|].
  unfold after_request. step_world. rewrite last_snoc.
  rewrite image2page_kwargs_eq, Hmodel. reflexivity.
Qed.

(** X10.  A page that [image2page] returns has the page index of the call,
    and holds the input image exactly when [includes_raw_image] is set. *)
Theorem image2page_page_fields a w page w' :
  image2page a w = (Return page, w') ->
  page_index page = arg_page_index a
  /\ page_image page
     = (if arg_includes_raw_image a then Some (arg_image a) else None).
Proof.
  intros Hrun.
  apply image2page_Return_inv in Hrun
    as (client & kwargs & w2 & response & x3 & x4 & _ & _ & _ & -> & _).
  split; reflexivity.
Qed.

(** X11.  Every way [image2page] can fail.  What it raises is what the
    check raised at the first checkpoint, or what the PNG encoder raised,
    or what the [except] clause makes of an error of the client
    constructor or of the transport (an [OCRError] of step 1 for an
    [Exception], the error itself otherwise), or what the check raised at
    the second checkpoint, or, both checkpoints passed, the
    [AttributeError] of reading [choices[0].message.content] from a
    response that lacks [choices], the message or its [content]. *)
Theorem image2page_Raise_inv a w e w' :
  image2page a w = (Raise e, w') ->
  (exists x1, check_aborted (arg_aborted a) (ext w) = (Raise e, x1)
              /\ self w' = self w /\ trace w' = trace w)
  \/ (Image_save_png (arg_image a) = Raise e
      /\ self w' = self w /\ trace w' = trace w)
  \/ (exists err x1 x2,
        _client (self w) = None
        /\ OpenAI_init (_api_key (self w)) (_base_url (self w)) x1
           = (Raise err, x2)
        /\ e = request_phase_error (arg_page_index a) err
        /\ self w' = self w /\ trace w' = trace w)
  \/ (exists client kwargs w2 err x3,
        request_ready a w client kwargs w2
        /\ chat_completions_create client kwargs (ext w2) = (Raise err, x3)
        /\ e = request_phase_error (arg_page_index a) err
        /\ w' = after_request w2 client kwargs x3)
  \/ (exists client kwargs w2 response x3 x4,
        request_ready a w client kwargs w2
        /\ chat_completions_create client kwargs (ext w2)
           = (Return response, x3)
        /\ check_aborted (arg_aborted a) x3 = (Raise e, x4)
        /\ w' = after_request w2 client kwargs x4)
  \/ (exists client kwargs w2 response x3 x4,
        request_ready a w client kwargs w2
        /\ chat_completions_create client kwargs (ext w2)
           = (Return response, x3)
        /\ check_aborted (arg_aborted a) x3 = (Return tt, x4)
        /\ first_choice_readable response = false
        /\ image2page_content response = Raise e
        /\ isinstance e cls_AttributeError = true
        /\ w' = after_request w2 client kwargs x4).
Proof.
  destruct (check_aborted (arg_aborted a) (ext w)) as [[[]|e1] x1] eqn:H1.
  2:{ rewrite (image2page_first_checkpoint _ _ _ _ H1). intros [= <- <-].
      left. exists x1. auto. }
  destruct (Image_save_png (arg_image a)) as [buf|e2] eqn:H2.
  2:{ enter_image2page. rewrite H1. step_world. rewrite H2.
      intros [= <- <-]. right. left. auto. }
  destruct (_get_client_effect (mkWorld (self w) x1 (allocated w) (trace w)))
    as [(c & Hc & Hget) | [(Hnone & x & Hget) | (Hnone & err & x & Hget)]];
    cbn zeta in Hget.
  3:{ enter_image2page. rewrite H1. step_world. rewrite H2, Hget.
      intros Hrun. do 2 right. left. exists err, x1, x.
      split; [exact Hnone|].
      assert (Hinit : OpenAI_init (_api_key (self w)) (_base_url (self w)) x1
                      = (Raise err, x)).
      { revert Hget. unfold _get_client, bind, get_self. step_world.
        cbn in Hnone. rewrite Hnone. unfold OpenAI_new, bind, outside.
        step_world.
        destruct (OpenAI_init (_api_key (self w)) (_base_url (self w)) x1)
          as [[[]|e'] x'].
        - discriminate.
        - now intros [= -> ->]. }
      split; [exact Hinit|]. unfold request_phase_error.
      destruct (isinstance err cls_Exception); injection Hrun as <- <-; auto. }
  all: match type of Hget with
       | _get_client _ = (Return ?c, ?g) =>
           assert (Hready : request_ready a w c
                     (image2page_kwargs (_model (self g))
                        (image2page_messages
                           (py "data:image/png;base64," ++ b64encode buf))
                        (arg_max_output_tokens a)) g)
             by (exists x1, buf; auto);
           destruct (chat_completions_create c
                       (image2page_kwargs (_model (self g))
                          (image2page_messages
                             (py "data:image/png;base64," ++ b64encode buf))
                          (arg_max_output_tokens a)) (ext g))
             as [[response|err] x3] eqn:H4;
           [ destruct (check_aborted (arg_aborted a) x3)
               as [[[]|e5] x4] eqn:H5;
             [ rewrite (image2page_answered _ _ _ _ _ _ _ _ Hready H4 H5);
               destruct (first_choice_readable response) eqn:H6;
               [ rewrite (image2page_content_readable _ H6); discriminate
               | destruct (image2page_content_unreadable _ H6)
                   as (e6 & H7 & H8);
                 rewrite H7; intros [= <- <-]; do 5 right;
                 eexists _, _, _, response, x3, x4; repeat split; eauto ]
             | rewrite (image2page_second_checkpoint _ _ _ _ _ _ _ _ _
                          Hready H4 H5);
               intros [= <- <-]; do 4 right; left;
               eexists _, _, _, response, x3, x4; eauto ]
           | rewrite (image2page_request_raises _ _ _ _ _ _ _ Hready H4);
             intros [= <- <-]; do 3 right; left;
             eexists _, _, _, err, x3; eauto ]
       end.
Qed.
End MoreBackend.

(* ===================================================================== *)
(** ** More on the instance across calls *)
(* ===================================================================== *)

Section Instance.
Context `{Runtime}.

(** What one call can do to the instance and to the trace: nothing, or a
    request on the held client, or the construction of the first client,
    or both. *)
Lemma after_call_effect call w :
  let w' := after_call call w in
  exists events,
    trace w' = trace w ++ events
    /\ _api_key (self w') = _api_key (self w)
    /\ _base_url (self w') = _base_url (self w)
    /\ _model (self w') = _model (self w)
    /\ ((self w' = self w
         /\ (events = []
             \/ exists c kwargs, _client (self w) = Some c
                                 /\ events = [request_issued c kwargs]))
        \/ exists c, _client (self w) = None
             /\ _client (self w') = Some c
             /\ client_api_key c = _api_key (self w)
             /\ client_base_url c = _base_url (self w)
             /\ (events = [client_constructed c]
                 \/ exists kwargs,
                      events = [client_constructed c; request_issued c kwargs])).
Proof.
  assert (Hnil : forall v : World,
    exists events, trace v = trace v ++ events
      /\ _api_key (self v) = _api_key (self v)
      /\ _base_url (self v) = _base_url (self v)
      /\ _model (self v) = _model (self v)
      /\ ((self v = self v
           /\ (events = []
               \/ exists c kwargs, _client (self v) = Some c
                                   /\ events = [request_issued c kwargs]))
          \/ exists c, _client (self v) = None
               /\ _client (self v) = Some c
               /\ client_api_key c = _api_key (self v)
               /\ client_base_url c = _base_url (self v)
               /\ (events = [client_constructed c]
                   \/ exists kwargs,
                        events = [client_constructed c; request_issued c kwargs]))).
  { intros v. exists []. rewrite app_nil_r. repeat split. left. auto. }
  destruct call as [revision| |a|]; cbn [after_call]; cbn zeta.
  - apply Hnil.
  - apply Hnil.
  - destruct (image2page_effect a w)
      as [(Hs & Ht & _) | (client & kwargs & w2 & Hready & Hs & Ht)];
      cbn zeta in *.
    + rewrite Hs, Ht. apply Hnil.
    + destruct Hready as (x1 & buf & _ & _ & Hget & _).
      apply _get_client_Return in Hget
        as (Hc & Hk & Hu & Hm & [[Hsame Hg] | (Hnone & Hck & Hcu & Hg)]);
        cbn [self trace] in *; rewrite Hs, Ht, Hg.
      * eexists. split; [reflexivity|]. rewrite Hsame. repeat split.
        left. split; [reflexivity|]. right. exists client, kwargs.
        rewrite <- Hsame. auto.
      * eexists. split; [rewrite <- app_assoc; reflexivity|].
        repeat split; auto. right. exists client. repeat split; eauto.
  - destruct (_get_client_effect w)
      as [(c & Hc & ->) | [(Hnone & x & ->) | (Hnone & e & x & ->)]];
      cbn zeta; step_world.
    + apply Hnil.
    + eexists. split; [reflexivity|]. repeat split. right.
      eexists. repeat split; eauto.
    + exists []. rewrite app_nil_r. repeat split. left. auto.
Qed.

(** X12.  No sequence of operations changes the key, the base URL or the
    model of an instance: they are what [__init__] stored. *)
Theorem after_calls_keeps_configuration calls w :
  _api_key (self (after_calls calls w)) = _api_key (self w)
  /\ _base_url (self (after_calls calls w)) = _base_url (self w)
  /\ _model (self (after_calls calls w)) = _model (self w).
Proof.
  revert w. induction calls as [|call calls IH]; intros w; [auto|].
  change (after_calls (call :: calls) w)
    with (after_calls calls (after_call call w)).
  destruct (IH (after_call call w)) as (-> & -> & ->).
  destruct (after_call_effect call w) as (events & _ & Hk & Hu & Hm & _).
  auto.
Qed.

(** X13.  The client an instance holds was built from the instance's own
    key and base URL, and this stays true through any sequence of
    operations. *)
Theorem after_calls_client_matches calls w :
  client_matches (self w) -> client_matches (self (after_calls calls w)).
Proof.
  revert w. induction calls as [|call calls IH]; intros w Hw; [exact Hw|].
  apply IH.
  destruct (after_call_effect call w)
    as (events & _ & Hk & Hu & _ & [[Hs _] | (c & _ & Hc & Hck & Hcu & _)]);
    cbn zeta in *.
  - now rewrite Hs.
  - intros c' Hc'. rewrite Hc in Hc'. injection Hc' as <-.
    now rewrite Hk, Hu.
Qed.

(** X14.  Every request is issued on the client the instance holds: this
    holds of the trace through any sequence of operations, so all the
    requests of an instance go through one and the same client. *)
Theorem after_calls_requests_on_client calls w :
  requests_on_client w -> requests_on_client (after_calls calls w).
Proof.
  revert w. induction calls as [|call calls IH]; intros w Hw; [exact Hw|].
  apply IH.
  destruct (after_call_effect call w)
    as (events & Ht & _ & _ & _ & [[Hs Hev] | (c & Hnone & Hc & _ & _ & Hev)]);
    cbn zeta in *; intros c' kwargs' Hin; rewrite Ht in Hin;
    apply in_app_or in Hin as [Hold | Hnew].
  - rewrite Hs. eauto.
  - rewrite Hs.
    destruct Hev as [-> | (c0 & k0 & Hc0 & ->)]; [destruct Hnew|].
    destruct Hnew as [[= <- <-] | []]. exact Hc0.
  - apply Hw in Hold. congruence.
  - rewrite Hc.
    destruct Hev as [-> | (k0 & ->)].
    + destruct Hnew as [[=] | []].
    + destruct Hnew as [[=] | [[= <- <-] | []]]. reflexivity.
Qed.

(** X15.  A failed construction is not remembered.  When the client
    constructor raises, [_get_client] raises the same error and the
    instance still has no client; the next [_get_client] calls the
    constructor again, and holds the client if that succeeds. *)
Theorem _get_client_retries w err x :
  _client (self w) = None ->
  OpenAI_init (_api_key (self w)) (_base_url (self w)) (ext w) = (Raise err, x) ->
  let w1 := snd (_get_client w) in
  fst (_get_client w) = Raise err
  /\ self w1 = self w
  /\ trace w1 = trace w
  /\ ext w1 = x
  /\ forall x',
       OpenAI_init (_api_key (self w)) (_base_url (self w)) x = (Return tt, x') ->
       exists c, fst (_get_client w1) = Return c
                 /\ _client (self (snd (_get_client w1))) = Some c.
Proof.
  intros Hnone Hinit. cbn zeta.
  rewrite (_get_client_raises w err x Hnone Hinit). step_world.
  repeat split. intros x' Hinit'.
  rewrite (_get_client_first (mkWorld (self w) x (allocated w) (trace w)) x'
             Hnone Hinit').
  step_world. eauto.
Qed.
End Instance.

(* ===================================================================== *)
(** ** More on the text and URL helpers *)
(* ===================================================================== *)

Section StripEnds.
Variable p : codepoint -> bool.

Lemma lstrip_by_head (s : pystr) c :
  head (lstrip_by p s) = Some c -> p c = false.
Proof.
  induction s as [|d s IH]; simpl; [discriminate|].
  destruct (p d) eqn:Hd; [exact IH|].
  simpl. now intros [= <-].
Qed.

Lemma last_rev (s : pystr) : last (rev s) = head s.
Proof. destruct s as [|d s]; [reflexivity|]. simpl. apply last_snoc. Qed.

Lemma rstrip_by_last (s : pystr) c :
  last (rstrip_by p s) = Some c -> p c = false.
Proof. unfold rstrip_by. rewrite last_rev. apply lstrip_by_head. Qed.

Lemma rstrip_by_head (s : pystr) c :
  head (rstrip_by p s) = Some c -> head s = Some c.
Proof.
  destruct (rstrip_by_split p s) as [r [Hs _]].
  destruct (rstrip_by p s) as [|d t]; [discriminate|].
  rewrite Hs. simpl. auto.
Qed.

Lemma forallb_lstrip_by (q : codepoint -> bool) (s : pystr) :
  forallb q s = true -> forallb q (lstrip_by p s) = true.
Proof.
  destruct (lstrip_by_split p s) as [l [Hs _]].
  intros Hq. rewrite Hs, forallb_app in Hq.
  now apply andb_prop in Hq as [_ Hq].
Qed.

Lemma forallb_rstrip_by (q : codepoint -> bool) (s : pystr) :
  forallb q s = true -> forallb q (rstrip_by p s) = true.
Proof.
  destruct (rstrip_by_split p s) as [r [Hs _]].
  intros Hq. rewrite Hs, forallb_app in Hq.
  now apply andb_prop in Hq as [Hq _].
Qed.
End StripEnds.

Lemma strip_ends (s : pystr) c :
  (head (strip s) = Some c -> is_whitespace c = false)
  /\ (last (strip s) = Some c -> is_whitespace c = false).
Proof.
  unfold strip. split.
  - intros Hh. apply rstrip_by_head in Hh. now apply lstrip_by_head in Hh.
  - apply rstrip_by_last.
Qed.

Lemma remove_surrogates_clean (s : pystr) :
  forallb (fun c => negb (is_surrogate c)) (remove_surrogates s) = true.
Proof.
  induction s as [|c s IH]; [reflexivity|].
  simpl. destruct (negb (is_surrogate c)) eqn:Hc; [|exact IH].
  simpl. now rewrite Hc.
Qed.

Lemma remove_surrogates_idem (s : pystr) :
  forallb (fun c => negb (is_surrogate c)) s = true ->
  remove_surrogates s = s.
Proof.
  induction s as [|c s IH]; [reflexivity|].
  simpl. intros Hs. apply andb_prop in Hs as [Hc Hs].
  rewrite Hc. now rewrite IH.
Qed.

(** X16.  The text [_normalize_text] returns is trimmed: it neither starts
    nor ends with a whitespace code point; for [None] and for the empty
    string it is empty. *)
Theorem _normalize_text_trimmed (text : option pystr) (c : codepoint) :
  (head (_normalize_text text) = Some c -> is_whitespace c = false)
  /\ (last (_normalize_text text) = Some c -> is_whitespace c = false)
  /\ (str_truthy text = false -> _normalize_text text = []).
Proof.
  destruct text as [[|d t]|]; cbn [_normalize_text str_truthy];
    try (repeat split; discriminate).
  destruct (strip_ends (remove_surrogates (d :: t)) c) as [Hh Hl].
  repeat split; [exact Hh | exact Hl | discriminate].
Qed.

Lemma _normalize_text_trimmed_witness :
  _normalize_text (Some (py "  a b" ++ [12288%N; 10%N])) = py "a b"
  /\ head (py "a b") = Some 97%N /\ is_whitespace 97%N = false
  /\ last (py "a b") = Some 98%N /\ is_whitespace 98%N = false.
Proof.
  split; [reflexivity|].
  destruct (_normalize_text_trimmed
              (Some (py "  a b" ++ [12288%N; 10%N])) 97%N) as (Hh & _ & _).
  destruct (_normalize_text_trimmed
              (Some (py "  a b" ++ [12288%N; 10%N])) 98%N) as (_ & Hl & _).
  split; [reflexivity|]. split; [exact (Hh eq_refl)|].
  split; [reflexivity|]. exact (Hl eq_refl).
Defined.

(** X17.  With [remove_surrogates] removing the code points U+D800 to
    U+DFFF, the text [_normalize_text] returns holds no surrogate, and
    normalizing it again changes nothing. *)
Theorem _normalize_text_idempotent (text : option pystr) :
  forallb (fun c => negb (is_surrogate c)) (_normalize_text text) = true
  /\ _normalize_text (Some (_normalize_text text)) = _normalize_text text.
Proof.
  assert (Hclean :
    forallb (fun c => negb (is_surrogate c)) (_normalize_text text) = true).
  { destruct text as [[|d t]|]; try reflexivity.
    cbn [_normalize_text]. unfold strip.
    apply forallb_rstrip_by, forallb_lstrip_by, remove_surrogates_clean. }
  split; [exact Hclean|].
  rewrite _normalize_text_Some, (remove_surrogates_idem _ Hclean).
  destruct text as [[|d t]|]; try reflexivity.
  cbn [_normalize_text].
  pose proof (strip_remove_surrogates_strip (remove_surrogates (d :: t))) as Hs.
  rewrite (remove_surrogates_idem (remove_surrogates (d :: t))) in Hs
    by apply remove_surrogates_clean.
  rewrite (remove_surrogates_idem (strip (remove_surrogates (d :: t)))) in Hs.
  - exact Hs.
  - unfold strip.
    apply forallb_rstrip_by, forallb_lstrip_by, remove_surrogates_clean.
Qed.

Lemma b64_digit_symbol (i : N) :
  (i < 64)%N -> In (b64_digit i) b64_alphabet.
Proof.
  intros Hi. unfold b64_digit. apply nth_In.
  change (length b64_alphabet) with 64%nat. lia.
Qed.

Lemma list_ind3 {A} (P : list A -> Prop) :
  P [] -> (forall a, P [a]) -> (forall a b, P [a; b]) ->
  (forall a b c r, P r -> P (a :: b :: c :: r)) ->
  forall l, P l.
Proof.
  intros H0 H1 H2 H3.
  fix IH 1.
  intros [|a [|b [|c r]]];
    [exact H0 | exact (H1 a) | exact (H2 a b) | exact (H3 a b c r (IH r))].
Qed.

Lemma b64encode_length (data : list Byte.byte) :
  length (b64encode data) = (4 * ((length data + 2) / 3))%nat.
Proof.
  induction data as [|a|a b|a b c r IH] using list_ind3; try reflexivity.
  cbn [b64encode]. cbv zeta. rewrite length_app, IH. cbn [length].
  replace (S (S (S (length r))) + 2)%nat with (length r + 2 + 1 * 3)%nat by lia.
  rewrite Nat.div_add by lia. lia.
Qed.

Lemma b64_sextets (x y : N) :
  (x <= 255)%N -> (y <= 255)%N ->
  (x / 4 < 64 /\ x mod 4 * 16 < 64 /\ x mod 4 * 16 + y / 16 < 64
   /\ y mod 16 * 4 < 64 /\ x mod 16 * 4 + y / 64 < 64 /\ y mod 64 < 64)%N.
Proof.
  intros Hx Hy.
  assert (x / 4 < 64)%N by (apply N.Div0.div_lt_upper_bound; lia).
  assert (y / 16 < 16)%N by (apply N.Div0.div_lt_upper_bound; lia).
  assert (y / 64 < 4)%N by (apply N.Div0.div_lt_upper_bound; lia).
  pose proof (N.mod_upper_bound x 4). pose proof (N.mod_upper_bound x 16).
  pose proof (N.mod_upper_bound y 16). pose proof (N.mod_upper_bound y 64).
  lia.
Qed.

Lemma b64encode_symbols (data : list Byte.byte) :
  Forall (fun c => In c b64_alphabet \/ c = b64_pad) (b64encode data).
Proof.
  induction data as [|a|a b|a b c r IH] using list_ind3.
  - constructor.
  - destruct (b64_sextets (Byte.to_N a) 0 (Byte.to_N_bounded a))
      as (? & ? & _); [lia|].
    cbn [b64encode]. cbv zeta.
    repeat (constructor; [first [right; reflexivity
                                | left; apply b64_digit_symbol; assumption]|]).
    constructor.
  - destruct (b64_sextets (Byte.to_N a) (Byte.to_N b)
                (Byte.to_N_bounded a) (Byte.to_N_bounded b))
      as (? & _ & ? & ? & _).
    cbn [b64encode]. cbv zeta.
    repeat (constructor; [first [right; reflexivity
                                | left; apply b64_digit_symbol; assumption]|]).
    constructor.
  - destruct (b64_sextets (Byte.to_N a) (Byte.to_N b)
                (Byte.to_N_bounded a) (Byte.to_N_bounded b))
      as (? & _ & ? & _).
    destruct (b64_sextets (Byte.to_N b) (Byte.to_N c)
                (Byte.to_N_bounded b) (Byte.to_N_bounded c))
      as (_ & _ & _ & _ & ? & ?).
    cbn [b64encode]. cbv zeta. apply Forall_app. split; [|exact IH].
    repeat (constructor; [left; apply b64_digit_symbol; assumption|]).
    constructor.
Qed.

Lemma b64_symbol_ascii (c : codepoint) :
  In c b64_alphabet \/ c = b64_pad -> (c < 128)%N.
Proof.
  intros [Hin | ->]; [|reflexivity].
  assert (Hall : forallb (fun c => (c <? 128)%N) b64_alphabet = true)
    by reflexivity.
  rewrite List.forallb_forall in Hall. apply N.ltb_lt, Hall, Hin.
Qed.

Lemma rstrip_slashes (s : pystr) :
  (exists n, s = rstrip s (py "/") ++ repeat 47%N n)
  /\ last (rstrip s (py "/")) <> Some 47%N.
Proof.
  unfold rstrip. split.
  - destruct (rstrip_by_split (fun c => existsb (N.eqb c) (py "/")) s)
      as [r [Hs Hr]].
    exists (length r). rewrite Hs at 1. f_equal.
    clear Hs. induction r as [|c r IH]; [reflexivity|].
    cbn in Hr. rewrite orb_false_r in Hr. apply andb_prop in Hr as [Hc Hr].
    apply N.eqb_eq in Hc as ->. cbn [length repeat]. now rewrite <- IH.
  - intros Hl. apply rstrip_by_last in Hl. discriminate.
Qed.

(** X18.  [__init__] stores the key and the model as given and no client;
    the base URL it stores is the given one without its trailing slashes,
    all of them and nothing else. *)
Theorem APIPageExtractor__init__strips_slashes (api_key base_url model : pystr) :
  let s := APIPageExtractor__init__ api_key base_url model in
  (exists n, base_url = _base_url s ++ repeat 47%N n)
  /\ last (_base_url s) <> Some 47%N
  /\ _api_key s = api_key
  /\ _model s = model
  /\ _client s = None.
Proof.
  cbn. destruct (rstrip_slashes base_url) as [Hsplit Hlast].
  repeat split; assumption.
Qed.

(** X19.  [create_api_extractor_from_env] returns [None] exactly when
    neither [SILICONFLOW_API_KEY] nor [OCR_API_KEY] is set to a non-empty
    value. *)
Theorem create_api_extractor_from_env_None (environ : gmap string pystr) :
  create_api_extractor_from_env environ = None
  <-> str_truthy (environ !! "SILICONFLOW_API_KEY") = false
      /\ str_truthy (environ !! "OCR_API_KEY") = false.
Proof.
  unfold create_api_extractor_from_env.
  destruct (environ !! "SILICONFLOW_API_KEY") as [[|c r]|];
    cbn [str_truthy negb];
    try (destruct (environ !! "OCR_API_KEY") as [[|d t]|];
         cbn [str_truthy negb]);
    split; try discriminate; try (intros [? ?]; discriminate); auto.
Qed.

(** X20.  An extractor [create_api_extractor_from_env] returns has a
    non-empty key and no client.  The key is that of [SILICONFLOW_API_KEY]
    when that is set and not empty, that of [OCR_API_KEY] otherwise; the
    model and the base URL are those of [OCR_API_MODEL] and
    [OCR_API_BASE_URL], the defaults when these are not set, the base URL
    without its trailing slashes. *)
Theorem create_api_extractor_from_env_Some
    (environ : gmap string pystr) (s : APIPageExtractor) :
  create_api_extractor_from_env environ = Some s ->
  _api_key s <> []
  /\ _client s = None
  /\ Some (_api_key s)
     = (if str_truthy (environ !! "SILICONFLOW_API_KEY")
        then environ !! "SILICONFLOW_API_KEY"
        else environ !! "OCR_API_KEY")
  /\ _model s = default DEFAULT_OCR_API_MODEL (environ !! "OCR_API_MODEL")
  /\ _base_url s
     = rstrip (default DEFAULT_OCR_API_BASE_URL (environ !! "OCR_API_BASE_URL"))
              (py "/")
  /\ last (_base_url s) <> Some 47%N.
Proof.
  unfold create_api_extractor_from_env.
  destruct (environ !! "SILICONFLOW_API_KEY") as [[|c r]|];
    cbn [str_truthy negb];
    try (destruct (environ !! "OCR_API_KEY") as [[|d t]|];
         cbn [str_truthy negb]);
    try discriminate;
    intros [= <-]; cbn;
    (repeat split; [discriminate | apply rstrip_slashes]).
Qed.

(** X21.  [create_api_extractor_from_env] reads four variables only:
    setting any other variable of the environment does not change what it
    returns. *)
Theorem create_api_extractor_from_env_reads_four
    (environ : gmap string pystr) (name : string) (value : pystr) :
  ~ In name ["SILICONFLOW_API_KEY"; "OCR_API_KEY"; "OCR_API_BASE_URL";
             "OCR_API_MODEL"] ->
  create_api_extractor_from_env (<[name := value]> environ)
  = create_api_extractor_from_env environ.
Proof.
  intros Hname. unfold create_api_extractor_from_env.
  rewrite !lookup_insert_ne; [reflexivity| | | |];
    intros ->; apply Hname; cbn; auto.
Qed.

Section DataUrl.
Context `{Runtime}.

(** X22.  The data URL of an image is "data:image/png;base64," followed by
    four symbols for every three bytes of the PNG, the last group padded;
    the symbols are those of the base64 alphabet and "=", so the URL is
    ASCII.  When the encoder raises, so does [_image_to_base64_data_url],
    with the same error. *)
Theorem _image_to_base64_data_url_shape (image : Image) :
  match _image_to_base64_data_url image with
  | Return url =>
      exists buf payload,
        Image_save_png image = Return buf
        /\ url = py "data:image/png;base64," ++ payload
        /\ length payload = (4 * ((length buf + 2) / 3))%nat
        /\ Forall (fun c => In c b64_alphabet \/ c = b64_pad) payload
        /\ Forall (fun c => (c < 128)%N) url
  | Raise e => Image_save_png image = Raise e
  end.
Proof.
  unfold _image_to_base64_data_url.
  destruct (Image_save_png image) as [buf|e]; [|reflexivity].
  exists buf, (b64encode buf). split; [reflexivity|]. split; [reflexivity|].
  split; [apply b64encode_length|]. split; [apply b64encode_symbols|].
  apply Forall_app. split.
  - apply Forall_forall. intros c Hc. apply list_elem_of_In in Hc.
    assert (Hall : forallb (fun c => (c <? 128)%N)
                     (py "data:image/png;base64,") = true) by reflexivity.
    rewrite List.forallb_forall in Hall. apply N.ltb_lt, Hall, Hc.
  - eapply Forall_impl; [apply b64encode_symbols|].
    intros c Hc. now apply b64_symbol_ascii.
Qed.
End DataUrl.

(* ===================================================================== *)
(** ** The further properties at concrete inputs *)
(* ===================================================================== *)

Lemma image2page_masks_signals_witness :
  let reply := Raise (TokenLimitError 100 0) in
  let R := double reply in
  let a := double_args reply never in
  let w := double_world reply in
  to_interrupted_error (Some dpe_library) (TokenLimitError 100 0)
  = Return (Some (mkInterrupted TOKEN_LIMIT_EXCEEDED (mkMetering 100 0)))
  /\ exists e,
       fst (@image2page R a w) = Raise e
       /\ is_inline_error e = true
       /\ to_interrupted_error (Some dpe_library) e = Return None.
Proof.
  intros reply R a w. split; [reflexivity|].
  apply (@image2page_masks_signals R a w double_client double_kwargs
           (double_ready _) (TokenLimitError 100 0) 1%nat (Some dpe_library)).
  - apply double_request_ready.
  - reflexivity.
  - reflexivity.
  - intros lib [= <-] Hin. apply list_elem_of_In in Hin. cbn in Hin.
    intuition discriminate.
Defined.

Lemma image2page_reads_five_arguments_witness :
  let reply := Return hello_reply in
  @same_read_arguments (double reply)
    (double_args reply never) (double_args_other reply never)
  /\ @image2page (double reply) (double_args reply never) (double_world reply)
     = @image2page (double reply) (double_args_other reply never)
         (double_world reply).
Proof.
  intros reply.
  assert (Hsame : @same_read_arguments (double reply)
                    (double_args reply never) (double_args_other reply never))
    by (repeat split).
  split; [exact Hsame|].
  exact (@image2page_reads_five_arguments (double reply) _ _
           (double_world reply) Hsame).
Defined.

Lemma image2page_one_request_witness :
  let reply := Return hello_reply in
  let R := double reply in
  let a := double_args reply never in
  let w := double_ready reply in
  (exists page, fst (@image2page R a w) = Return page)
  /\ requests (trace (snd (@image2page R a w))) = 1%nat.
Proof.
  intros reply R a w.
  destruct (@image2page_one_request R a w) as (_ & _ & _ & Hone).
  split; [eexists; vm_compute; reflexivity|].
  exact (Hone (response_page a hello_reply) eq_refl).
Defined.

Lemma image2page_request_shape_witness :
  let reply := Return hello_reply in
  let R := double reply in
  let a := double_args reply never in
  let w := double_world reply in
  let w' := after_request (double_ready reply) double_client double_kwargs 2%nat in
  @image2page R a w = (Return (response_page a hello_reply), w')
  /\ exists client buf,
       @Image_save_png R (arg_image a) = Return buf
       /\ _client (self w') = Some client
       /\ last (trace w')
          = Some (request_issued client
                    (mkKwargs DEFAULT_OCR_API_MODEL
                       [ mkMessageParam (py "user")
                           [ image_url_part
                               (py "data:image/png;base64," ++ b64encode buf)
                               (py "high");
                             text_part
                               (py "<image>" ++ [10%N]
                                ++ py "Convert the document to markdown.") ] ]
                       (Some 256))).
Proof.
  intros reply R a w w'.
  assert (Hrun : @image2page R a w
                 = (Return (response_page a hello_reply), w'))
    by (vm_compute; reflexivity).
  split; [exact Hrun|].
  exact (@image2page_request_shape R a w _ w' Hrun).
Defined.

Lemma image2page_page_fields_witness :
  let reply := Return hello_reply in
  let R := double reply in
  let a := @mkArgs R double_image 7 tt tt false true None None None None
             never in
  let w := double_world reply in
  let page := response_page a hello_reply in
  fst (@image2page R a w) = Return page
  /\ page_index page = 7
  /\ page_image page = Some double_image.
Proof.
  intros reply R a w page.
  assert (Hrun : @image2page R a w = (Return page, snd (@image2page R a w)))
    by (vm_compute; reflexivity).
  split; [vm_compute; reflexivity|].
  exact (@image2page_page_fields R a w page _ Hrun).
Defined.

Lemma image2page_Raise_inv_witness :
  let a := @mkArgs unencodable double_image 7 tt tt false false None None
             None None tt in
  let w := @mkWorld unencodable
             (APIPageExtractor__init__ (py "sk-test") [] []) 0%nat 0%nat [] in
  @image2page unencodable a w = (Raise boom, w)
  /\ @Image_save_png unencodable (arg_image a) = Raise boom.
Proof.
  intros a w.
  assert (Hrun : @image2page unencodable a w = (Raise boom, w))
    by reflexivity.
  split; [exact Hrun|].
  destruct (@image2page_Raise_inv unencodable a w boom w Hrun)
    as [(x1 & Hc & _)
       | [(Hs & _)
         | [(err & x1 & x2 & _ & Hi & _)
           | [(c & k & w2 & err & x3 & (x1 & buf & _ & Hs & _) & _)
             | [(c & k & w2 & r & x3 & x4 & (x1 & buf & _ & Hs & _) & _)
               | (c & k & w2 & r & x3 & x4 & (x1 & buf & _ & Hs & _) & _)]]]]].
  - discriminate Hc.
  - exact Hs.
  - discriminate Hi.
  - discriminate Hs.
  - discriminate Hs.
  - discriminate Hs.
Defined.

Lemma after_calls_client_matches_witness :
  let R := double (Return hello_reply) in
  let w := double_world (Return hello_reply) in
  let calls := [call_image2page (double_args _ never); call__get_client] in
  client_matches (self w)
  /\ _client (self (@after_calls R calls w)) = Some double_client
  /\ client_matches (self (@after_calls R calls w)).
Proof.
  intros R w calls.
  assert (Hw : client_matches (self w)) by (intros c Hc; discriminate Hc).
  split; [exact Hw|]. split; [reflexivity|].
  exact (@after_calls_client_matches R calls w Hw).
Defined.

Lemma after_calls_requests_on_client_witness :
  let R := double (Return hello_reply) in
  let w := double_world (Return hello_reply) in
  let calls := [call_image2page (double_args _ never);
                call_image2page (double_args_other _ never)] in
  @requests_on_client R w
  /\ requests (trace (@after_calls R calls w)) = 2%nat
  /\ @requests_on_client R (@after_calls R calls w).
Proof.
  intros R w calls.
  assert (Hw : @requests_on_client R w) by (intros c k Hin; destruct Hin).
  split; [exact Hw|]. split; [reflexivity|].
  exact (@after_calls_requests_on_client R calls w Hw).
Defined.

Lemma _get_client_retries_witness :
  _client (self flaky_world) = None
  /\ fst (@_get_client flaky_constructor flaky_world) = Raise boom
  /\ exists c,
       fst (@_get_client flaky_constructor
              (snd (@_get_client flaky_constructor flaky_world)))
       = Return c.
Proof.
  destruct (@_get_client_retries flaky_constructor flaky_world boom 1%nat
              eq_refl eq_refl) as (Hraise & _ & _ & _ & Hnext).
  split; [reflexivity|]. split; [exact Hraise|].
  destruct (Hnext 2%nat eq_refl) as (c & Hc & _).
  exists c. exact Hc.
Defined.

Lemma create_api_extractor_from_env_None_witness :
  str_truthy ((<["OCR_API_KEY" := []]> ∅ : gmap string pystr)
                !! "SILICONFLOW_API_KEY") = false
  /\ create_api_extractor_from_env (<["OCR_API_KEY" := []]> ∅) = None.
Proof.
  split; [reflexivity|].
  apply (create_api_extractor_from_env_None (<["OCR_API_KEY" := []]> ∅)).
  split; reflexivity.
Defined.

Lemma create_api_extractor_from_env_Some_witness :
  let s := mkExtractor (py "sk-fallback") (py "https://ocr.example/v1")
             DEFAULT_OCR_API_MODEL None in
  create_api_extractor_from_env fallback_environ = Some s
  /\ Some (_api_key s) = fallback_environ !! "OCR_API_KEY"
  /\ _model s = DEFAULT_OCR_API_MODEL.
Proof.
  intros s.
  destruct (create_api_extractor_from_env_Some fallback_environ s eq_refl)
    as (_ & _ & Hkey & Hmodel & _).
  split; [reflexivity|]. split; [exact Hkey | exact Hmodel].
Defined.

Lemma create_api_extractor_from_env_reads_four_witness :
  create_api_extractor_from_env (<["HOME" := py "/root"]> fallback_environ)
  = create_api_extractor_from_env fallback_environ.
Proof.
  apply (create_api_extractor_from_env_reads_four fallback_environ "HOME"
           (py "/root")).
  cbn. intros [H | [H | [H | [H | []]]]]; discriminate H.
Defined.
